(** * spk: the [create-pipeline] command and the pipelines library

    A shallow embedding of
      - [src/lib/pipelines/pipelines.ts]: the payload builders
        [definitionForAzureRepoPipeline] and
        [definitionForGithubRepoPipeline], and the wrappers around the
        vendor build API ([getBuildApiClient], [createPipelineForDefinition],
        [queueBuild]);
      - the command module: [installPipeline] and the action registered by
        [createPipelineCommandDecorator].

    Vendor objects are records whose fields are all optional, as in the
    vendor's TypeScript interfaces.  External calls, log lines and calls of
    the exit function are recorded in a trace; a computation ends by
    returning, by throwing, or with the process terminated. *)

From stdpp Require Import base strings list gmap.
From Stdlib Require Import ZArith Ascii String.

Local Open Scope string_scope.
Local Open Scope Z_scope.
Local Open Scope list_scope.

(** ** JavaScript values as far as the command inspects them *)

(** The values of [opts] and of the configuration file are untyped ([any]);
    the action only applies [typeof] to them and interpolates them in log
    lines. *)
Inductive jsval : Type :=
  | JUndefined
  | JNull
  | JBool (b : bool)
  | JNum (n : Z)
  | JStr (s : string)
  | JObject.

(** [typeof v] *)
Definition typeof (v : jsval) : string :=
  match v with
  | JUndefined => "undefined"
  | JNull => "object"
  | JBool _ => "boolean"
  | JNum _ => "number"
  | JStr _ => "string"
  | JObject => "object"
  end.

(** ** Node's [path.join] (POSIX flavour)

    [path] is a module of the Node runtime.  The model works on the
    segments between separators: empty segments and ["."] are dropped,
    [".."] removes the segment before it, or is kept when there is none to
    remove and the path is relative. *)
Module path.

Definition sep : string := "/".

Fixpoint split (s : string) : list string :=
  match s with
  | EmptyString => [""]
  | String c r =>
      if Ascii.eqb c "/" then "" :: split r
      else match split r with
           | seg :: rest => String c seg :: rest
           | [] => [String c ""]
           end
  end.

(** The stack holds the segments kept so far, last one first. *)
Definition step (allowAboveRoot : bool) (stack : list string) (seg : string)
  : list string :=
  if String.eqb seg "" then stack
  else if String.eqb seg "." then stack
  else if String.eqb seg ".." then
    match stack with
    | top :: below =>
        if String.eqb top ".." then
          (if allowAboveRoot then seg :: stack else stack)
        else below
    | [] => if allowAboveRoot then [seg] else []
    end
  else seg :: stack.

Fixpoint concat_sep (segs : list string) : string :=
  match segs with
  | [] => ""
  | [s] => s
  | s :: rest => s +:+ sep +:+ concat_sep rest
  end.

Definition normalizeString (p : string) (allowAboveRoot : bool) : string :=
  concat_sep (rev (fold_left (step allowAboveRoot) (split p) [])).

Definition starts_with_sep (p : string) : bool :=
  match p with
  | String c _ => Ascii.eqb c "/"
  | EmptyString => false
  end.

Fixpoint ends_with_sep (p : string) : bool :=
  match p with
  | EmptyString => false
  | String c EmptyString => Ascii.eqb c "/"
  | String _ r => ends_with_sep r
  end.

Definition normalize (p : string) : string :=
  if String.eqb p "" then "."
  else
    let isAbsolute := starts_with_sep p in
    let trailingSeparator := ends_with_sep p in
    let q := normalizeString p (negb isAbsolute) in
    if String.eqb q "" then
      (if isAbsolute then "/" else if trailingSeparator then "./" else ".")
    else
      let q' := if trailingSeparator then q +:+ "/" else q in
      if isAbsolute then "/" +:+ q' else q'.

(** [path.join(...args)]: the non-empty arguments joined by the separator,
    then normalized; ["."] when there is nothing to join. *)
Definition join (args : list string) : string :=
  match filter (fun a => a ≠ "") args with
  | [] => "."
  | parts => normalize (concat_sep parts)
  end.

End path.

(** ** The vendor's build interfaces ([BuildInterfaces]) *)

Module DefinitionTriggerType.
Inductive t := ContinuousIntegration | Other (code : Z).
End DefinitionTriggerType.

Module DefinitionQueueStatus.
Inductive t := Enabled | Paused | Disabled.
End DefinitionQueueStatus.

Module DefinitionType.
Inductive t := Xaml | Build.
End DefinitionType.

(** [Definition_] stands for [DefinitionQuality.Definition]. *)
Module DefinitionQuality.
Inductive t := Definition_ | Draft.
End DefinitionQuality.

(** [RepositoryTypes] of the library, with the string each member denotes. *)
Module RepositoryTypes.
Inductive t := Github | Azure.

Definition value (r : t) : string :=
  match r with
  | Github => "github"
  | Azure => "tfsgit"
  end.
End RepositoryTypes.

Record BuildDefinitionVariable := {
allowOverride : option bool;
isSecret : option bool;
value : option string
}.

(** A JavaScript [number]; the code only stores and forwards numbers. *)
Abbreviation number := Z.

Record ContinuousIntegrationTrigger := {
batchChanges : bool;
branchFilters : list string;
maxConcurrentBuildsPerBranch : number;
settingsSourceType : number;
triggerType : DefinitionTriggerType.t
}.

Record TaskAgentPoolReference := {
pool_id : number;
pool_name : string
}.

Record AgentPoolQueue := {
queue_name : string;
queue_pool : TaskAgentPoolReference
}.

Record BuildRepository := {
defaultBranch : string;
repo_id : string;
repo_name : string;
repo_properties : option (gmap string string);
repo_type : string;
repo_url : string
}.

Record YamlProcess := {
yamlFilename : string
}.

(** The fields of [BuildDefinition] that this program reads or writes; a
  field that is absent from the object is [None]. *)
Record BuildDefinition := {
badgeEnabled : option bool;
triggers : option (list ContinuousIntegrationTrigger);
queue : option AgentPoolQueue;
queueStatus : option DefinitionQueueStatus.t;
name : option string;
type : option DefinitionType.t;
quality : option DefinitionQuality.t;
repository : option BuildRepository;
process : option YamlProcess;
variables : option (gmap string BuildDefinitionVariable);
id : option number
}.

Record DefinitionReference := {
ref_id : option number
}.

Record Build := {
build_definition : option DefinitionReference
}.

(** ** [pipelines.ts]: the payload builder *)

Definition hostedUbuntuPool : string := "Hosted Ubuntu 1604".
Definition hostedUbuntuPoolId : number := 224.

Record IPipeline := {
  pipelineName : string;
  repositoryUrl : string;
  repositoryName : string;
  yamlFileBranch : string;
  yamlFilePath : string;
  cfg_branchFilters : list string;
  maximumConcurrentBuilds : number;
  cfg_variables : option (gmap string BuildDefinitionVariable)
}.

Abbreviation IAzureRepoPipelineConfig := IPipeline.

(** [{}] *)
Definition empty_definition : BuildDefinition :=
  {| badgeEnabled := None; triggers := None; queue := None;
     queueStatus := None; name := None; type := None; quality := None;
     repository := None; process := None; variables := None; id := None |}.

(** Assignments [d.field = v]. *)
Definition set_badgeEnabled (v : bool) (d : BuildDefinition) :=
  {| badgeEnabled := Some v; triggers := triggers d; queue := queue d;
     queueStatus := queueStatus d; name := name d; type := type d;
     quality := quality d; repository := repository d; process := process d;
     variables := variables d; id := id d |}.
Definition set_triggers (v : list ContinuousIntegrationTrigger) (d : BuildDefinition) :=
  {| badgeEnabled := badgeEnabled d; triggers := Some v; queue := queue d;
     queueStatus := queueStatus d; name := name d; type := type d;
     quality := quality d; repository := repository d; process := process d;
     variables := variables d; id := id d |}.
Definition set_queue (v : AgentPoolQueue) (d : BuildDefinition) :=
  {| badgeEnabled := badgeEnabled d; triggers := triggers d; queue := Some v;
     queueStatus := queueStatus d; name := name d; type := type d;
     quality := quality d; repository := repository d; process := process d;
     variables := variables d; id := id d |}.
Definition set_queueStatus (v : DefinitionQueueStatus.t) (d : BuildDefinition) :=
  {| badgeEnabled := badgeEnabled d; triggers := triggers d; queue := queue d;
     queueStatus := Some v; name := name d; type := type d;
     quality := quality d; repository := repository d; process := process d;
     variables := variables d; id := id d |}.
Definition set_name (v : string) (d : BuildDefinition) :=
  {| badgeEnabled := badgeEnabled d; triggers := triggers d; queue := queue d;
     queueStatus := queueStatus d; name := Some v; type := type d;
     quality := quality d; repository := repository d; process := process d;
     variables := variables d; id := id d |}.
Definition set_type (v : DefinitionType.t) (d : BuildDefinition) :=
  {| badgeEnabled := badgeEnabled d; triggers := triggers d; queue := queue d;
     queueStatus := queueStatus d; name := name d; type := Some v;
     quality := quality d; repository := repository d; process := process d;
     variables := variables d; id := id d |}.
Definition set_quality (v : DefinitionQuality.t) (d : BuildDefinition) :=
  {| badgeEnabled := badgeEnabled d; triggers := triggers d; queue := queue d;
     queueStatus := queueStatus d; name := name d; type := type d;
     quality := Some v; repository := repository d; process := process d;
     variables := variables d; id := id d |}.
Definition set_repository (v : BuildRepository) (d : BuildDefinition) :=
  {| badgeEnabled := badgeEnabled d; triggers := triggers d; queue := queue d;
     queueStatus := queueStatus d; name := name d; type := type d;
     quality := quality d; repository := Some v; process := process d;
     variables := variables d; id := id d |}.
Definition set_process (v : YamlProcess) (d : BuildDefinition) :=
  {| badgeEnabled := badgeEnabled d; triggers := triggers d; queue := queue d;
     queueStatus := queueStatus d; name := name d; type := type d;
     quality := quality d; repository := repository d; process := Some v;
     variables := variables d; id := id d |}.
Definition set_variables (v : gmap string BuildDefinitionVariable) (d : BuildDefinition) :=
  {| badgeEnabled := badgeEnabled d; triggers := triggers d; queue := queue d;
     queueStatus := queueStatus d; name := name d; type := type d;
     quality := quality d; repository := repository d; process := process d;
     variables := Some v; id := id d |}.

(** [definitionForAzureRepoPipeline]: the assignments in source order. *)
Definition definitionForAzureRepoPipeline (pipelineConfig : IAzureRepoPipelineConfig)
  : BuildDefinition :=
  let pipelineDefinition := empty_definition in
  let pipelineDefinition := set_badgeEnabled true pipelineDefinition in
  let pipelineDefinition :=
    set_triggers
      [ {| batchChanges := false;
           branchFilters := cfg_branchFilters pipelineConfig;
           maxConcurrentBuildsPerBranch := maximumConcurrentBuilds pipelineConfig;
           settingsSourceType := 2;
           triggerType := DefinitionTriggerType.ContinuousIntegration |} ]
      pipelineDefinition in
  let pipelineDefinition :=
    set_queue
      {| queue_name := hostedUbuntuPool;
         queue_pool := {| pool_id := hostedUbuntuPoolId;
                          pool_name := hostedUbuntuPool |} |}
      pipelineDefinition in
  let pipelineDefinition := set_queueStatus DefinitionQueueStatus.Enabled pipelineDefinition in
  let pipelineDefinition := set_name (pipelineName pipelineConfig) pipelineDefinition in
  let pipelineDefinition := set_type DefinitionType.Build pipelineDefinition in
  let pipelineDefinition := set_quality DefinitionQuality.Definition_ pipelineDefinition in
  let pipelineDefinition :=
    set_repository
      {| defaultBranch := yamlFileBranch pipelineConfig;
         repo_id := repositoryName pipelineConfig;
         repo_name := repositoryName pipelineConfig;
         repo_properties := None;
         repo_type := RepositoryTypes.value RepositoryTypes.Azure;
         repo_url := repositoryUrl pipelineConfig |}
      pipelineDefinition in
  let pipelineDefinition :=
    set_process {| yamlFilename := yamlFilePath pipelineConfig |}
      pipelineDefinition in
  let pipelineDefinition :=
    match cfg_variables pipelineConfig with
    | Some vars => (* an object is truthy *)
        set_variables vars pipelineDefinition
    | None => pipelineDefinition
    end in
  pipelineDefinition.

(** [IGithubRepoPipelineConfig extends IPipeline]: the fields of [IPipeline]
    and the service connection. *)
Record IGithubRepoPipelineConfig := {
  github_pipeline : IPipeline;
  serviceConnectionId : string
}.

(** [definitionForGithubRepoPipeline]: the assignments in source order. *)
Definition definitionForGithubRepoPipeline (pipelineConfig : IGithubRepoPipelineConfig)
  : BuildDefinition :=
  let base := github_pipeline pipelineConfig in
  let pipelineDefinition := empty_definition in
  let pipelineDefinition := set_badgeEnabled true pipelineDefinition in
  let pipelineDefinition :=
    set_triggers
      [ {| batchChanges := false;
           branchFilters := cfg_branchFilters base;
           maxConcurrentBuildsPerBranch := maximumConcurrentBuilds base;
           settingsSourceType := 2;
           triggerType := DefinitionTriggerType.ContinuousIntegration |} ]
      pipelineDefinition in
  let pipelineDefinition :=
    set_queue
      {| queue_name := hostedUbuntuPool;
         queue_pool := {| pool_id := hostedUbuntuPoolId;
                          pool_name := hostedUbuntuPool |} |}
      pipelineDefinition in
  let pipelineDefinition :=
    set_queueStatus DefinitionQueueStatus.Enabled pipelineDefinition in
  let pipelineDefinition := set_name (pipelineName base) pipelineDefinition in
  let pipelineDefinition := set_type DefinitionType.Build pipelineDefinition in
  let pipelineDefinition :=
    set_quality DefinitionQuality.Definition_ pipelineDefinition in
  let pipelineDefinition :=
    set_repository
      {| defaultBranch := yamlFileBranch base;
         repo_id := repositoryName base;
         repo_name := repositoryName base;
         repo_properties :=
           Some {[ "connectedServiceId" := serviceConnectionId pipelineConfig ]};
         repo_type := RepositoryTypes.value RepositoryTypes.Github;
         repo_url := repositoryUrl base |}
      pipelineDefinition in
  let pipelineDefinition :=
    set_process {| yamlFilename := yamlFilePath base |} pipelineDefinition in
  let pipelineDefinition :=
    match cfg_variables base with
    | Some vars => (* an object is truthy *)
        set_variables vars pipelineDefinition
    | None => pipelineDefinition
    end in
  pipelineDefinition.

(** ** Effects: traces, outcomes and the monad of the asynchronous code *)

(** A template literal: literal text, an interpolated primitive value, or an
    interpolated [JSON.stringify] of a build definition. *)
Inductive fragment : Type :=
  | Lit (s : string)
  | Interp (v : jsval)
  | Json (d : BuildDefinition).

Definition message : Type := list fragment.

(** What can be thrown or be the reason of a rejected promise: an [Error]
    made by this program, or whatever a call outside of it fails with. *)
Inductive thrown : Type :=
  | Error (msg : message)
  | Foreign (reason : string).

Inductive level : Type := debug | info | error.

Inductive logged : Type :=
  | Text (msg : message)
  | Caught (e : thrown).

(** The personal-access-token handler of the vendor SDK. *)
Inductive IRequestHandler : Type :=
  | PersonalAccessTokenHandler (token : string).

Definition getPersonalAccessTokenHandler (token : string) : IRequestHandler :=
  PersonalAccessTokenHandler token.

Inductive event : Type :=
  | Log (l : level) (what : logged)
  | GetOriginUrl
  | GetBuildApi (orgUrl : string) (authHandler : IRequestHandler)
  | CreateDefinition (d : BuildDefinition) (project : string)
  | QueueBuild (b : Build) (project : string)
  | ExitCall (status : Z).

Definition trace : Type := list event.

(** The settled value of a promise, or the result of a call that may throw. *)
Inductive result (A : Type) : Type :=
  | Resolved (a : A)
  | Rejected (e : thrown).
Arguments Resolved {A} a.
Arguments Rejected {A} e.

(** How a computation ends; [Exit] is the process terminated by
    [process.exit]. *)
Inductive outcome (A : Type) : Type :=
  | Return (a : A)
  | Throw (e : thrown)
  | Exit (status : Z).
Arguments Return {A} a.
Arguments Throw {A} e.
Arguments Exit {A} status.

Definition M (A : Type) : Type := trace * outcome A.

#[global] Instance M_ret : MRet M := λ A a, ([], Return a).

#[global] Instance M_bind : MBind M := λ A B k m,
  match m with
  | (t, Return a) => let '(t', o) := k a in (t ++ t', o)
  | (t, Throw e) => (t, Throw e)
  | (t, Exit s) => (t, Exit s)
  end.

Definition throw {A} (e : thrown) : M A := ([], Throw e).

(** [try { body } catch (err) { handler }] *)
Definition try_catch {A} (body : M A) (handler : thrown -> M A) : M A :=
  match body with
  | (t, Throw e) => let '(t', o) := handler e in (t ++ t', o)
  | other => other
  end.

(** [logger.debug], [logger.info], [logger.error] *)
Definition log (l : level) (what : logged) : M unit := ([Log l what], Return tt).

(** An external call: the call is recorded, then it settles. *)
Definition call {A} (ev : event) (r : result A) : M A :=
  ([ev], match r with Resolved a => Return a | Rejected e => Throw e end).

(** A call of a synchronous helper that may throw. *)
Definition sync {A} (r : result A) : M A :=
  ([], match r with Resolved a => Return a | Rejected e => Throw e end).

(** The exit function handed to [installPipeline]: the call is recorded;
    what it does then is up to the function. *)
Definition call_exit (exitFn : Z -> outcome unit) (status : Z) : M unit :=
  ([ExitCall status], exitFn status).

(** [process.exit] does not return. *)
Definition process_exit (status : Z) : outcome unit := Exit status.

Definition process_exit_now {A} (status : Z) : M A :=
  ([ExitCall status], Exit status).

(** The result of a [try] block whose handler may leave the function. *)
Inductive flow (A R : Type) : Type :=
  | Next (a : A)
  | Returned (r : R).
Arguments Next {A R} a.
Arguments Returned {A R} r.

(** ** The vendor build API and the rest of the outside world *)

(** [IBuildApi]: the two methods this program calls.  [createDefinition] can
    resolve [null] ([None]) in spite of its declared type. *)
Record IBuildApi := {
  api_createDefinition : BuildDefinition -> string -> result (option BuildDefinition);
  api_queueBuild : Build -> string -> result Build
}.

(** [azure_devops] section of the configuration. *)
Record AzureDevopsConfig := {
  org : jsval;
  access_token : jsval;
  project : jsval
}.

(** What is outside of the two source files: the vendor's [WebApi] (the
    constructor followed by [getBuildApi]), [azdoUrl] of [lib/azdoutil],
    the helpers of [lib/gitutils] and the loaded configuration. *)
Record World := {
  WebApi : string -> IRequestHandler -> result IBuildApi;
  azdoUrl : string -> string;
  getOriginUrl : result string;
  getRepositoryName : string -> result string;
  getRepositoryUrl : string -> result string;
  Config_azure_devops : option AzureDevopsConfig
}.

(** ** [pipelines.ts]: the wrappers around the build API *)

Definition initBuildApiClient
    (tokenHandler : string -> IRequestHandler)
    (webapi : string -> IRequestHandler -> result IBuildApi)
    (azdoUrl : string -> string)
    (orgName token : string) : M IBuildApi :=
  let authHandler := tokenHandler token in
  let orgUrl := azdoUrl orgName in
  call (GetBuildApi orgUrl authHandler) (webapi orgUrl authHandler).

Definition getBuildApiClient (w : World) (orgName personalAccessToken : string)
  : M IBuildApi :=
  initBuildApiClient getPersonalAccessTokenHandler (WebApi w) (azdoUrl w)
    orgName personalAccessToken.

Definition createPipelineForDefinition
    (buildApi : IBuildApi) (azdoProject : string) (definition : BuildDefinition)
  : M BuildDefinition :=
  log info (Text [Lit "Creating pipeline for definition"]) ;;
  try_catch
    (log debug (Text [Lit "Creating BuildDefinition based on "; Json definition]) ;;
     createdDefn ← call (CreateDefinition definition azdoProject)
                         (api_createDefinition buildApi definition azdoProject);
     match createdDefn with
     | None => (* !createdDefn *)
         throw (Error [Lit "Error creating BuildDefinition; buildApi.createDefinition() returned an invalid value of ";
                       Interp JNull])
     | Some created => mret created
     end)
    (fun e =>
       log error (Caught e) ;;
       throw (Error [Lit "Error creating definition"])).

Definition queueBuild
    (buildApi : IBuildApi) (azdoProject : string) (definitionId : number)
  : M Build :=
  let buildReference :=
    {| build_definition := Some {| ref_id := Some definitionId |} |} in
  try_catch
    (call (QueueBuild buildReference azdoProject)
          (api_queueBuild buildApi buildReference azdoProject))
    (fun e =>
       log error (Caught e) ;;
       throw (Error [Lit "Error queueing build"])).

(** ** The command module: [installPipeline] *)

(** The object literal that [installPipeline] hands to the payload builder.
    [packagesDir ? ... : ...] tests truthiness: [undefined] and the empty
    string are falsy, every other string is truthy. *)
Definition pipelineConfigFor
    (serviceName pipelineName repositoryName repositoryUrl : string)
    (packagesDir : option string) : IAzureRepoPipelineConfig :=
  {| cfg_branchFilters := ["master"];
     maximumConcurrentBuilds := 1;
     pipelineName := pipelineName;
     repositoryName := repositoryName;
     repositoryUrl := repositoryUrl;
     yamlFileBranch := "master";
     yamlFilePath :=
       match packagesDir with
       | Some dir =>
           if String.eqb dir "" then "azure-pipelines.yaml"
           else path.join [dir; serviceName; "azure-pipelines.yaml"]
       | None => "azure-pipelines.yaml"
       end;
     cfg_variables := None |}.

Definition installPipeline (w : World)
    (serviceName orgName personalAccessToken pipelineName
       repositoryName repositoryUrl project : string)
    (packagesDir : option string)
    (exitFn : Z -> outcome unit) : M unit :=
  fetched ← try_catch
    (client ← getBuildApiClient w orgName personalAccessToken;
     log info (Text [Lit "Fetched DevOps Client"]) ;;
     mret (Next client))
    (fun err =>
       log error (Caught err) ;;
       r ← call_exit exitFn 1;
       mret (Returned r));
  match fetched with
  | Returned r => mret r
  | Next devopsClient =>
      let definition :=
        definitionForAzureRepoPipeline
          (pipelineConfigFor serviceName pipelineName repositoryName
             repositoryUrl packagesDir) in
      created ← try_catch
        (log debug (Text [Lit "Creating pipeline for project '";
                          Interp (JStr project);
                          Lit "' with definition '"; Json definition; Lit "'"]) ;;
         built ← createPipelineForDefinition devopsClient project definition;
         mret (Next built))
        (fun err =>
           log error (Text [Lit "Error occurred during pipeline creation for ";
                            Interp (JStr pipelineName)]) ;;
           log error (Caught err) ;;
           r ← call_exit exitFn 1;
           mret (Returned r));
      match created with
      | Returned r => mret r
      | Next builtDefinition =>
          match id builtDefinition with
          | None => (* typeof builtDefinition.id === "undefined" *)
              throw (Error [Lit "Invalid BuildDefinition created, parameter 'id' is missing from ";
                            Json builtDefinition])
          | Some builtId =>
              log info (Text [Lit "Created pipeline for ";
                              Interp (JStr pipelineName)]) ;;
              log info (Text [Lit "Pipeline ID: "; Interp (JNum builtId)]) ;;
              try_catch
                (queueBuild devopsClient project builtId ;; mret tt)
                (fun err =>
                   log error (Text [Lit "Error occurred when queueing build for ";
                                    Interp (JStr pipelineName)]) ;;
                   log error (Caught err) ;;
                   call_exit exitFn 1)
          end
      end
  end.

(** ** The command module: the action of [create-pipeline] *)

(** The parsed options.  The six options that the action validates are kept
    as arbitrary values; [packagesDir] is what the option parser yields for
    an option with a mandatory value: a string, or [undefined] when the
    option is omitted. *)
Record Options := {
  opt_orgName : jsval;
  opt_personalAccessToken : jsval;
  opt_devopsProject : jsval;
  opt_pipelineName : jsval;
  opt_packagesDir : option string;
  opt_repoName : jsval;
  opt_repoUrl : jsval
}.

(** The constants bound by the destructuring of [opts]. *)
Record Inputs := {
  in_orgName : jsval;
  in_personalAccessToken : jsval;
  in_devopsProject : jsval;
  in_pipelineName : jsval;
  in_packagesDir : option string;
  in_repoName : jsval;
  in_repoUrl : jsval
}.

(** A destructuring default: evaluated, and used, only when the property is
    [undefined]. *)
Definition defaulted (v : jsval) (dflt : M jsval) : M jsval :=
  match v with
  | JUndefined => dflt
  | _ => mret v
  end.

(** [azure_devops && azure_devops.field] *)
Definition config_field (azure_devops : option AzureDevopsConfig)
    (field : AzureDevopsConfig -> jsval) : jsval :=
  match azure_devops with
  | None => JUndefined
  | Some c => field c
  end.

Definition resolveInputs (w : World) (serviceName : string) (opts : Options)
  : M Inputs :=
  gitOriginUrl ← call GetOriginUrl (getOriginUrl w);
  let azure_devops := Config_azure_devops w in
  orgName ← defaulted (opt_orgName opts) (mret (config_field azure_devops org));
  personalAccessToken ←
    defaulted (opt_personalAccessToken opts)
      (mret (config_field azure_devops access_token));
  devopsProject ←
    defaulted (opt_devopsProject opts) (mret (config_field azure_devops project));
  pipelineName ←
    defaulted (opt_pipelineName opts) (mret (JStr (serviceName +:+ "-pipeline")));
  let packagesDir := opt_packagesDir opts in
  repoName ←
    defaulted (opt_repoName opts)
      (s ← sync (getRepositoryName w gitOriginUrl); mret (JStr s));
  repoUrl ←
    defaulted (opt_repoUrl opts)
      (s ← sync (getRepositoryUrl w gitOriginUrl); mret (JStr s));
  mret {| in_orgName := orgName;
          in_personalAccessToken := personalAccessToken;
          in_devopsProject := devopsProject;
          in_pipelineName := pipelineName;
          in_packagesDir := packagesDir;
          in_repoName := repoName;
          in_repoUrl := repoUrl |}.

Definition interp_packagesDir (d : option string) : jsval :=
  match d with
  | Some s => JStr s
  | None => JUndefined
  end.

Definition logInputs (i : Inputs) : M unit :=
  log debug (Text [Lit "orgName: "; Interp (in_orgName i)]) ;;
  log debug (Text [Lit "personalAccessToken: "; Interp (in_personalAccessToken i)]) ;;
  log debug (Text [Lit "devopsProject: "; Interp (in_devopsProject i)]) ;;
  log debug (Text [Lit "pipelineName: "; Interp (in_pipelineName i)]) ;;
  log debug (Text [Lit "packagesDir: "; Interp (interp_packagesDir (in_packagesDir i))]) ;;
  log debug (Text [Lit "repoName: "; Interp (in_repoName i)]) ;;
  log debug (Text [Lit "repoUrl: "; Interp (in_repoUrl i)]).

(** [if (typeof v !== "string") throw new Error(...)]; past the test the
    value is known to be a string. *)
Definition require_string (flag : string) (v : jsval) : M string :=
  match v with
  | JStr s => mret s
  | _ =>
      throw (Error [Lit flag; Lit " must be of type 'string', ";
                    Lit (typeof v); Lit " given."])
  end.

Record Validated := {
  v_pipelineName : string;
  v_personalAccessToken : string;
  v_orgName : string;
  v_repoName : string;
  v_repoUrl : string;
  v_devopsProject : string
}.

(** The body of the first [try] block of the action. *)
Definition validateInputs (i : Inputs) : M Validated :=
  pipelineName ← require_string "--pipeline-name" (in_pipelineName i);
  personalAccessToken ←
    require_string "--personal-access-token" (in_personalAccessToken i);
  orgName ← require_string "--org-url" (in_orgName i);
  repoName ← require_string "--repo-name" (in_repoName i);
  repoUrl ← require_string "--repo-url" (in_repoUrl i);
  devopsProject ← require_string "--devops-project" (in_devopsProject i);
  mret {| v_pipelineName := pipelineName;
          v_personalAccessToken := personalAccessToken;
          v_orgName := orgName;
          v_repoName := repoName;
          v_repoUrl := repoUrl;
          v_devopsProject := devopsProject |}.

Definition action (w : World) (serviceName : string) (opts : Options) : M unit :=
  inputs ← resolveInputs w serviceName opts;
  logInputs inputs ;;
  checked ← try_catch
    (validateInputs inputs)
    (fun err =>
       log error (Text [Lit "Error occurred validating inputs for ";
                        Interp (JStr serviceName)]) ;;
       log error (Caught err) ;;
       process_exit_now 1);
  try_catch
    (installPipeline w serviceName (v_orgName checked)
       (v_personalAccessToken checked) (v_pipelineName checked)
       (v_repoName checked) (v_repoUrl checked) (v_devopsProject checked)
       (in_packagesDir inputs) process_exit)
    (fun err =>
       log error (Text [Lit "Error occurred installing pipeline for ";
                        Interp (JStr serviceName)]) ;;
       log error (Caught err) ;;
       process_exit_now 1).

(** ** Observations on traces *)

Inductive vendor_call : Type := Authenticate | Create | Queue.

Definition vendor_call_of (ev : event) : option vendor_call :=
  match ev with
  | GetBuildApi _ _ => Some Authenticate
  | CreateDefinition _ _ => Some Create
  | QueueBuild _ _ => Some Queue
  | _ => None
  end.

(** The vendor calls of a trace, in the order they were made. *)
Definition vendor_calls (t : trace) : list vendor_call :=
  omap vendor_call_of t.

(** The definitions handed to the vendor's [createDefinition], with the
    project each one was submitted to. *)
Definition definitions_submitted (t : trace) : list (BuildDefinition * string) :=
  omap (fun ev => match ev with
                  | CreateDefinition d p => Some (d, p)
                  | _ => None
                  end) t.

(** The YAML file names of the definitions handed to the vendor, one entry
    per submitted definition ([None] for a definition without a process). *)
Definition yamlFilenames_submitted (t : trace) : list (option string) :=
  (fun submitted => yamlFilename <$> process submitted.1)
    <$> definitions_submitted t.

(** The builds handed to the vendor's [queueBuild]. *)
Definition builds_queued (t : trace) : list (Build * string) :=
  omap (fun ev => match ev with
                  | QueueBuild b p => Some (b, p)
                  | _ => None
                  end) t.

(** The statuses the exit function was called with. *)
Definition exit_calls (t : trace) : list Z :=
  omap (fun ev => match ev with
                  | ExitCall s => Some s
                  | _ => None
                  end) t.

(** What was logged at level [error]. *)
Definition errors_logged (t : trace) : list logged :=
  omap (fun ev => match ev with
                  | Log error what => Some what
                  | _ => None
                  end) t.

(** Everything that was logged, at any level. *)
Definition logged_lines (t : trace) : list (level * logged) :=
  omap (fun ev => match ev with
                  | Log l what => Some (l, what)
                  | _ => None
                  end) t.

(** ** Sample worlds *)

(** An exit function that records nothing and returns, as a test double
    does. *)
Definition returningExit (status : Z) : outcome unit := Return tt.

Definition withId (n : number) (d : BuildDefinition) : BuildDefinition :=
  {| badgeEnabled := badgeEnabled d; triggers := triggers d; queue := queue d;
     queueStatus := queueStatus d; name := name d; type := type d;
     quality := quality d; repository := repository d; process := process d;
     variables := variables d; id := Some n |}.

(** A build API that stores the definition under id 42 and accepts builds. *)
Definition acceptingApi : IBuildApi :=
  {| api_createDefinition := fun d _ => Resolved (Some (withId 42 d));
     api_queueBuild := fun b _ => Resolved b |}.

(** A build API whose [createDefinition] rejects. *)
Definition refusingApi : IBuildApi :=
  {| api_createDefinition := fun _ _ => Rejected (Foreign "TF400898");
     api_queueBuild := fun b _ => Resolved b |}.

(** A build API that creates definitions and rejects every build. *)
Definition busyApi : IBuildApi :=
  {| api_createDefinition := fun d _ => Resolved (Some (withId 42 d));
     api_queueBuild := fun _ _ => Rejected (Foreign "queue is full") |}.

(** A build API that answers [createDefinition] with a definition without
    an id. *)
Definition forgetfulApi : IBuildApi :=
  {| api_createDefinition := fun d _ => Resolved (Some d);
     api_queueBuild := fun b _ => Resolved b |}.

(** A build API whose [createDefinition] resolves [null]. *)
Definition nullApi : IBuildApi :=
  {| api_createDefinition := fun _ _ => Resolved None;
     api_queueBuild := fun b _ => Resolved b |}.

Definition cartConfig : IAzureRepoPipelineConfig :=
  {| pipelineName := "cart-ci";
     repositoryUrl := "https://dev.azure.com/contoso/shop/_git/cart";
     repositoryName := "cart";
     yamlFileBranch := "master";
     yamlFilePath := "azure-pipelines.yaml";
     cfg_branchFilters := ["master"; "release"];
     maximumConcurrentBuilds := 2;
     cfg_variables := Some {[ "stage" := {| allowOverride := Some true;
                                            isSecret := None;
                                            value := Some "dev" |} ]} |}.

(** Options that are strings, two of them empty. *)
Definition emptyOptions : Options :=
  {| opt_orgName := JStr "";
     opt_personalAccessToken := JStr "";
     opt_devopsProject := JStr "shop";
     opt_pipelineName := JStr "cart-ci";
     opt_packagesDir := None;
     opt_repoName := JStr "cart";
     opt_repoUrl := JStr "url" |}.

Definition inputsOfEmptyOptions : Inputs :=
  {| in_orgName := JStr "";
     in_personalAccessToken := JStr "";
     in_devopsProject := JStr "shop";
     in_pipelineName := JStr "cart-ci";
     in_packagesDir := None;
     in_repoName := JStr "cart";
     in_repoUrl := JStr "url" |}.

Definition worldWith (connect : result IBuildApi) : World :=
  {| WebApi := fun _ _ => connect;
     azdoUrl := fun orgName => "https://dev.azure.com/" +:+ orgName;
     getOriginUrl := Resolved "https://dev.azure.com/contoso/shop/_git/cart";
     getRepositoryName := fun _ => Resolved "cart";
     getRepositoryUrl := fun u => Resolved u;
     Config_azure_devops := None |}.

(** The same world with an [azure_devops] section in the configuration. *)
Definition configuredWorld (connect : result IBuildApi) : World :=
  {| WebApi := fun _ _ => connect;
     azdoUrl := fun orgName => "https://dev.azure.com/" +:+ orgName;
     getOriginUrl := Resolved "https://dev.azure.com/contoso/shop/_git/cart";
     getRepositoryName := fun _ => Resolved "cart";
     getRepositoryUrl := fun u => Resolved u;
     Config_azure_devops :=
       Some {| org := JStr "contoso";
               access_token := JStr "pat";
               project := JStr "shop" |} |}.

(** A world in which the origin URL is not one [gitutils] can read. *)
Definition foreignOriginWorld : World :=
  {| WebApi := fun _ _ => Resolved acceptingApi;
     azdoUrl := fun orgName => "https://dev.azure.com/" +:+ orgName;
     getOriginUrl := Resolved "git@example.org:shop/cart.git";
     getRepositoryName := fun _ => Rejected (Foreign "unsupported origin");
     getRepositoryUrl := fun _ => Rejected (Foreign "unsupported origin");
     Config_azure_devops := None |}.

(** A world outside of any git repository. *)
Definition noGitWorld : World :=
  {| WebApi := fun _ _ => Resolved acceptingApi;
     azdoUrl := fun orgName => "https://dev.azure.com/" +:+ orgName;
     getOriginUrl := Rejected (Foreign "not a git repository");
     getRepositoryName := fun _ => Resolved "cart";
     getRepositoryUrl := fun u => Resolved u;
     Config_azure_devops := None |}.

(** What [noOptions] resolves to in [configuredWorld]. *)
Definition inputsOfConfiguration : Inputs :=
  {| in_orgName := JStr "contoso";
     in_personalAccessToken := JStr "pat";
     in_devopsProject := JStr "shop";
     in_pipelineName := JStr "cart-pipeline";
     in_packagesDir := None;
     in_repoName := JStr "cart";
     in_repoUrl := JStr "https://dev.azure.com/contoso/shop/_git/cart" |}.

(** What [allOptions] resolves to. *)
Definition inputsOfAllOptions : Inputs :=
  {| in_orgName := JStr "contoso";
     in_personalAccessToken := JStr "pat";
     in_devopsProject := JStr "shop";
     in_pipelineName := JStr "cart-ci";
     in_packagesDir := Some "packages";
     in_repoName := JStr "cart";
     in_repoUrl := JStr "https://dev.azure.com/contoso/shop/_git/cart" |}.

Definition noOptions : Options :=
  {| opt_orgName := JUndefined;
     opt_personalAccessToken := JUndefined;
     opt_devopsProject := JUndefined;
     opt_pipelineName := JUndefined;
     opt_packagesDir := None;
     opt_repoName := JUndefined;
     opt_repoUrl := JUndefined |}.

Definition allOptions : Options :=
  {| opt_orgName := JStr "contoso";
     opt_personalAccessToken := JStr "pat";
     opt_devopsProject := JStr "shop";
     opt_pipelineName := JStr "cart-ci";
     opt_packagesDir := Some "packages";
     opt_repoName := JStr "cart";
     opt_repoUrl := JStr "https://dev.azure.com/contoso/shop/_git/cart" |}.

(** What [noOptions] resolves to in [worldWith]: the configuration has no
    [azure_devops] section, the repository comes from the origin URL. *)
Definition inputsOfNoOptions : Inputs :=
  {| in_orgName := JUndefined;
     in_personalAccessToken := JUndefined;
     in_devopsProject := JUndefined;
     in_pipelineName := JStr "cart-pipeline";
     in_packagesDir := None;
     in_repoName := JStr "cart";
     in_repoUrl := JStr "https://dev.azure.com/contoso/shop/_git/cart" |}.

(** The payload that [installPipeline] builds from its arguments. *)
Definition payloadOf
    (serviceName pipelineName repositoryName repositoryUrl : string)
    (packagesDir : option string) : BuildDefinition :=
  definitionForAzureRepoPipeline
    (pipelineConfigFor serviceName pipelineName repositoryName repositoryUrl
       packagesDir).

(** The build reference that [queueBuild] makes of a definition id. *)
Definition buildReferenceOf (definitionId : number) : Build :=
  {| build_definition := Some {| ref_id := Some definitionId |} |}.

(** A run that stopped on an error [e]: exactly the vendor calls [calls]
    were made, [e] went to the error log, and the last thing that happened
    is the one call of the exit function, with status 1, whose outcome is
    the outcome of the run. *)
Definition stopped_after (calls : list vendor_call) (e : thrown)
    (exitFn : Z -> outcome unit) (run : M unit) : Prop :=
  vendor_calls run.1 = calls
  ∧ Caught e ∈ errors_logged run.1
  ∧ exit_calls run.1 = [1]
  ∧ last run.1 = Some (ExitCall 1)
  ∧ run.2 = exitFn 1.

(** The six tests of the action's first [try] block, in source order: the
    flag named in the message and the value tested. *)
Definition validationChecks (i : Inputs) : list (string * jsval) :=
  [ ("--pipeline-name", in_pipelineName i);
    ("--personal-access-token", in_personalAccessToken i);
    ("--org-url", in_orgName i);
    ("--repo-name", in_repoName i);
    ("--repo-url", in_repoUrl i);
    ("--devops-project", in_devopsProject i) ].

Definition not_a_string (check : string * jsval) : bool :=
  negb (String.eqb (typeof check.2) "string").

(** The [Error] of a failed test. *)
Definition validationError (check : string * jsval) : thrown :=
  Error [Lit check.1; Lit " must be of type 'string', ";
         Lit (typeof check.2); Lit " given."].

(** The two errors [installPipeline] and [createPipelineForDefinition] make
    themselves. *)
Definition invalidDefinitionValue : thrown :=
  Error [Lit "Error creating BuildDefinition; buildApi.createDefinition() returned an invalid value of ";
         Interp JNull].

Definition missingId (builtDefinition : BuildDefinition) : thrown :=
  Error [Lit "Invalid BuildDefinition created, parameter 'id' is missing from ";
         Json builtDefinition].

(** A path segment that [path.join] keeps as it is: not empty, without a
    separator, and neither ["."] nor [".."]. *)
Fixpoint no_separator (s : string) : bool :=
  match s with
  | EmptyString => true
  | String c r => negb (Ascii.eqb c "/") && no_separator r
  end.

Definition plain_segment (s : string) : bool :=
  no_separator s
  && negb (String.eqb s "") && negb (String.eqb s ".")
  && negb (String.eqb s "..").

(** * Properties *)

(** ** [path.join] on examples *)

Example join_monorepo :
  path.join ["packages"; "my-service"; "azure-pipelines.yaml"]
  = "packages/my-service/azure-pipelines.yaml".
Proof. vm_compute. reflexivity. Qed.

Example join_empty_first :
  path.join [""; "svc"; "azure-pipelines.yaml"] = "svc/azure-pipelines.yaml".
Proof. vm_compute. reflexivity. Qed.

Example join_dots :
  path.join ["./packages/"; "../svc//x"; "azure-pipelines.yaml"]
  = "svc/x/azure-pipelines.yaml".
Proof. vm_compute. reflexivity. Qed.

Example join_above_root :
  path.join ["a/../.."; "b/"] = "../b/"
  ∧ path.join ["/a/../.."; "b"] = "/b"
  ∧ path.join [""; ""] = ".".
Proof. vm_compute. repeat split. Qed.

(** ** The wrappers around the build API *)

Lemma typeof_string v : typeof v = "string" ↔ ∃ s, v = JStr s.
Proof.
  split.
  - destruct v; simpl; try discriminate. eauto.
  - intros [s ->]. reflexivity.
Qed.

Lemma getBuildApiClient_run w orgName personalAccessToken :
  getBuildApiClient w orgName personalAccessToken
  = call (GetBuildApi (azdoUrl w orgName)
            (PersonalAccessTokenHandler personalAccessToken))
         (WebApi w (azdoUrl w orgName)
            (PersonalAccessTokenHandler personalAccessToken)).
Proof. reflexivity. Qed.

Lemma getBuildApiClient_returns w orgName personalAccessToken client :
  (getBuildApiClient w orgName personalAccessToken).2 = Return client
  ↔ WebApi w (azdoUrl w orgName)
      (PersonalAccessTokenHandler personalAccessToken) = Resolved client.
Proof.
  rewrite getBuildApiClient_run. unfold call. simpl.
  destruct (WebApi w _ _); simpl; split; congruence.
Qed.

Lemma getBuildApiClient_throws w orgName personalAccessToken e :
  (getBuildApiClient w orgName personalAccessToken).2 = Throw e
  ↔ WebApi w (azdoUrl w orgName)
      (PersonalAccessTokenHandler personalAccessToken) = Rejected e.
Proof.
  rewrite getBuildApiClient_run. unfold call. simpl.
  destruct (WebApi w _ _); simpl; split; congruence.
Qed.

Ltac unfold_wrappers :=
  unfold getBuildApiClient, initBuildApiClient, getPersonalAccessTokenHandler,
    createPipelineForDefinition, queueBuild, call_exit, process_exit_now, call, sync, log, throw,
    try_catch, mbind, M_bind, mret, M_ret.

(** [createPipelineForDefinition] returns exactly when the vendor resolves
    a definition; a rejection and a [null] both end in the same [Error]. *)
Lemma createPipelineForDefinition_returns buildApi azdoProject definition created :
  (createPipelineForDefinition buildApi azdoProject definition).2 = Return created
  ↔ api_createDefinition buildApi definition azdoProject = Resolved (Some created).
Proof.
  unfold_wrappers.
  destruct (api_createDefinition _ _ _) as [[d|]|e]; simpl; split; congruence.
Qed.

Lemma createPipelineForDefinition_outcome buildApi azdoProject definition :
  (createPipelineForDefinition buildApi azdoProject definition).2
  = match api_createDefinition buildApi definition azdoProject with
    | Resolved (Some created) => Return created
    | _ => Throw (Error [Lit "Error creating definition"])
    end.
Proof.
  unfold_wrappers.
  by destruct (api_createDefinition _ _ _) as [[d|]|e].
Qed.

Lemma createPipelineForDefinition_submits buildApi azdoProject definition :
  definitions_submitted (createPipelineForDefinition buildApi azdoProject definition).1
  = [(definition, azdoProject)].
Proof.
  unfold_wrappers.
  by destruct (api_createDefinition _ _ _) as [[d|]|e].
Qed.

Lemma queueBuild_submits buildApi azdoProject definitionId :
  builds_queued (queueBuild buildApi azdoProject definitionId).1
  = [(buildReferenceOf definitionId, azdoProject)].
Proof.
  unfold_wrappers.
  by destruct (api_queueBuild _ _ _).
Qed.

Lemma queueBuild_outcome buildApi azdoProject definitionId :
  (queueBuild buildApi azdoProject definitionId).2
  = match api_queueBuild buildApi (buildReferenceOf definitionId) azdoProject with
    | Resolved b => Return b
    | Rejected _ => Throw (Error [Lit "Error queueing build"])
    end.
Proof.
  unfold_wrappers. unfold buildReferenceOf.
  by destruct (api_queueBuild _ _ _).
Qed.

(** ** The payload builder *)


(** C10: whatever the configuration, the built definition has the badge
    enabled, queue status [Enabled], type [Build], quality [Definition],
    repository type ["tfsgit"], and the queue ["Hosted Ubuntu 1604"] on
    pool 224; its [variables] field is the configuration's: present exactly
    when the configuration defines variables. *)
Theorem definitionForAzureRepoPipeline_fixed_values (pipelineConfig : IAzureRepoPipelineConfig) :
  let d := definitionForAzureRepoPipeline pipelineConfig in
  badgeEnabled d = Some true
  ∧ queueStatus d = Some DefinitionQueueStatus.Enabled
  ∧ type d = Some DefinitionType.Build
  ∧ quality d = Some DefinitionQuality.Definition_
  ∧ repo_type <$> repository d = Some "tfsgit"
  ∧ queue d = Some {| queue_name := "Hosted Ubuntu 1604";
                      queue_pool := {| pool_id := 224;
                                       pool_name := "Hosted Ubuntu 1604" |} |}
  ∧ variables d = cfg_variables pipelineConfig.
Proof.
  unfold definitionForAzureRepoPipeline.
  destruct (cfg_variables pipelineConfig); simpl; repeat split.
Qed.

(** The builder leaves [id] out, and sets nothing from outside the
    configuration: equal configurations give equal payloads. *)
Lemma definitionForAzureRepoPipeline_no_id (pipelineConfig : IAzureRepoPipelineConfig) :
  id (definitionForAzureRepoPipeline pipelineConfig) = None.
Proof.
  unfold definitionForAzureRepoPipeline.
  by destruct (cfg_variables pipelineConfig).
Qed.

(** ** [installPipeline]: the YAML file path *)

(** The object literal of [installPipeline]: for every non-empty
    [packagesDir] its YAML file path is
    [path.join(packagesDir, serviceName, "azure-pipelines.yaml")]; for
    [packagesDir] undefined or the empty string it is
    ["azure-pipelines.yaml"]. *)
Theorem yamlFilePath_by_packagesDir
    (serviceName pipelineName repositoryName repositoryUrl : string)
    (packagesDir : option string) :
  let p := yamlFilePath (pipelineConfigFor serviceName pipelineName
                           repositoryName repositoryUrl packagesDir) in
  (∀ dir, packagesDir = Some dir → dir ≠ "" →
     p = path.join [dir; serviceName; "azure-pipelines.yaml"])
  ∧ (packagesDir = None ∨ packagesDir = Some "" → p = "azure-pipelines.yaml").
Proof.
  simpl. split.
  - intros dir -> Hne.
    destruct (String.eqb_spec dir ""); [contradiction | reflexivity].
  - intros [-> | ->]; reflexivity.
Qed.

Lemma yamlFilePath_by_packagesDir_witness :
  yamlFilePath (pipelineConfigFor "cart" "cart-ci" "cart" "url" (Some "packages"))
  = "packages/cart/azure-pipelines.yaml"
  ∧ yamlFilePath (pipelineConfigFor "cart" "cart-ci" "cart" "url" None)
    = "azure-pipelines.yaml".
Proof.
  split.
  - apply (proj1 (yamlFilePath_by_packagesDir "cart" "cart-ci" "cart" "url"
                    (Some "packages")) "packages").
    + reflexivity.
    + discriminate.
  - apply (proj2 (yamlFilePath_by_packagesDir "cart" "cart-ci" "cart" "url" None)).
    left. reflexivity.
Defined.

(** The object literal at the empty string, which is a defined string: its
    path is ["azure-pipelines.yaml"], while
    [path.join("", "cart", "azure-pipelines.yaml")] is
    ["cart/azure-pipelines.yaml"]. *)
Lemma yamlFilePath_empty_packagesDir :
  yamlFilePath (pipelineConfigFor "cart" "cart-ci" "cart" "url" (Some ""))
  = "azure-pipelines.yaml"
  ∧ path.join [""; "cart"; "azure-pipelines.yaml"] = "cart/azure-pipelines.yaml"
  ∧ yamlFilePath (pipelineConfigFor "cart" "cart-ci" "cart" "url" (Some ""))
    ≠ path.join [""; "cart"; "azure-pipelines.yaml"].
Proof.
  split; [reflexivity |]. split; [vm_compute; reflexivity |].
  vm_compute. discriminate.
Qed.

(** ** [installPipeline]: the calls it makes and how it ends *)

Ltac unfold_install := unfold installPipeline, payloadOf; unfold_wrappers.

(** Membership in a list that is written out. *)
Ltac not_listed H :=
  repeat (apply elem_of_cons in H as [H | H]; [discriminate H |]);
  by apply elem_of_nil in H.

Section InstallPipeline.

Variable w : World.
Variables serviceName orgName personalAccessToken pipelineName : string.
Variables repositoryName repositoryUrl project : string.
Variable packagesDir : option string.
Variable exitFn : Z → outcome unit.

Local Abbreviation run :=
  (installPipeline w serviceName orgName personalAccessToken pipelineName
     repositoryName repositoryUrl project packagesDir exitFn).
Local Abbreviation payload :=
  (payloadOf serviceName pipelineName repositoryName repositoryUrl packagesDir).
Local Abbreviation authenticated client :=
  ((getBuildApiClient w orgName personalAccessToken).2 = Return client).
Local Abbreviation defined client created :=
  ((createPipelineForDefinition client project payload).2 = Return created).

(** C5: the vendor calls of a run are an initial part of: authenticate,
    create definition, queue build, so they happen in that order and each
    at most once; and a build is queued only in a run in which the
    definition was created, with an id. *)
Theorem installPipeline_call_order :
  vendor_calls run.1 `prefix_of` [Authenticate; Create; Queue]
  ∧ (Queue ∈ vendor_calls run.1 →
     ∃ client created definitionId,
       authenticated client
       ∧ defined client created
       ∧ id created = Some definitionId).
Proof.
  setoid_rewrite getBuildApiClient_returns.
  setoid_rewrite createPipelineForDefinition_returns.
  unfold_install.
  destruct (WebApi w _ _) as [client | e] eqn:Hclient; simpl.
  2: { destruct (exitFn 1); simpl;
       (split; [by exists [Create; Queue] | intros H; not_listed H]). }
  destruct (api_createDefinition client _ _) as [[created |] | e] eqn:Hcreated;
    simpl.
  - destruct (id created) as [definitionId |] eqn:Hid; simpl.
    + destruct (api_queueBuild client _ _); simpl.
      * split; [by exists [] | intros _; by exists client, created, definitionId].
      * destruct (exitFn 1); simpl;
          (split; [by exists []
                  | intros _; by exists client, created, definitionId]).
    + split; [by exists [Queue] | intros H; not_listed H].
  - destruct (exitFn 1); simpl;
      (split; [by exists [Queue] | intros H; not_listed H]).
  - destruct (exitFn 1); simpl;
      (split; [by exists [Queue] | intros H; not_listed H]).
Qed.

(** C7: once the client is fetched, the run submits exactly one definition,
    the payload built from the arguments, to the given project; the events
    of [createPipelineForDefinition] on that payload are part of the run,
    nothing else in the run submits a definition, and
    [createPipelineForDefinition] hands whatever definition it is given to
    the vendor as it is. *)
Theorem installPipeline_forwards_definition client :
  authenticated client →
  definitions_submitted run.1 = [(payload, project)]
  ∧ (∃ before after,
        run.1 = before
                ++ (createPipelineForDefinition client project payload).1
                ++ after
        ∧ definitions_submitted before = []
        ∧ definitions_submitted after = [])
  ∧ (∀ buildApi azdoProject definition,
        definitions_submitted
          (createPipelineForDefinition buildApi azdoProject definition).1
        = [(definition, azdoProject)]).
Proof.
  intros Hclient%getBuildApiClient_returns.
  split; [| split; [| apply createPipelineForDefinition_submits]].
  - unfold_install. rewrite Hclient. simpl.
    destruct (api_createDefinition client _ _) as [[created |] | e]; simpl;
      [destruct (id created); simpl;
         [destruct (api_queueBuild client _ _); simpl |] | |];
      try (destruct (exitFn 1)); reflexivity.
  - exists [GetBuildApi (azdoUrl w orgName)
              (PersonalAccessTokenHandler personalAccessToken);
            Log info (Text [Lit "Fetched DevOps Client"]);
            Log debug (Text [Lit "Creating pipeline for project '";
                             Interp (JStr project);
                             Lit "' with definition '"; Json payload;
                             Lit "'"])].
    unfold_install. rewrite Hclient. simpl.
    destruct (api_createDefinition client _ _) as [[created |] | e]; simpl;
      [destruct (id created); simpl;
         [destruct (api_queueBuild client _ _); simpl |] | |];
      try (destruct (exitFn 1)); simpl;
      eexists; (split; [reflexivity | split; reflexivity]).
Qed.

(** C2: in a run in which the client is fetched and
    [createPipelineForDefinition] returns a definition whose id is defined,
    exactly one build is queued: the events of [queueBuild] called with that
    very id are part of the run and nothing else in the run queues a build;
    and the build that [queueBuild] submits has the id it was called with as
    its [definition.id]. *)
Theorem installPipeline_queues_created_id client created definitionId :
  authenticated client →
  defined client created →
  id created = Some definitionId →
  builds_queued run.1 = [(buildReferenceOf definitionId, project)]
  ∧ (∃ before after,
        run.1 = before ++ (queueBuild client project definitionId).1 ++ after
        ∧ builds_queued before = []
        ∧ builds_queued after = [])
  ∧ (∀ buildApi azdoProject n,
        builds_queued (queueBuild buildApi azdoProject n).1
        = [({| build_definition := Some {| ref_id := Some n |} |}, azdoProject)]).
Proof.
  intros Hclient%getBuildApiClient_returns
         Hcreated%createPipelineForDefinition_returns Hid.
  unfold payloadOf in Hcreated.
  split; [| split; [| apply queueBuild_submits]].
  - unfold_install. rewrite Hclient. simpl. rewrite Hcreated. simpl.
    rewrite Hid. simpl.
    destruct (api_queueBuild client _ _); simpl;
      try (destruct (exitFn 1)); reflexivity.
  - exists [GetBuildApi (azdoUrl w orgName)
              (PersonalAccessTokenHandler personalAccessToken);
            Log info (Text [Lit "Fetched DevOps Client"]);
            Log debug (Text [Lit "Creating pipeline for project '";
                             Interp (JStr project);
                             Lit "' with definition '"; Json payload;
                             Lit "'"]);
            Log info (Text [Lit "Creating pipeline for definition"]);
            Log debug (Text [Lit "Creating BuildDefinition based on ";
                             Json payload]);
            CreateDefinition payload project;
            Log info (Text [Lit "Created pipeline for ";
                            Interp (JStr pipelineName)]);
            Log info (Text [Lit "Pipeline ID: "; Interp (JNum definitionId)])].
    unfold_install. rewrite Hclient. simpl. rewrite Hcreated. simpl.
    rewrite Hid. simpl.
    destruct (api_queueBuild client _ _); simpl;
      try (destruct (exitFn 1)); simpl;
      eexists; (split; [reflexivity | split; reflexivity]).
Qed.

(** C8: in a run in which [createPipelineForDefinition] returns a
    definition without an id, [installPipeline] throws an [Error] that
    names the missing id; the exit function is not called and no build is
    queued. *)
Theorem installPipeline_missing_id_throws client created :
  authenticated client →
  defined client created →
  id created = None →
  run.2 = Throw (Error [Lit "Invalid BuildDefinition created, parameter 'id' is missing from ";
                        Json created])
  ∧ exit_calls run.1 = []
  ∧ builds_queued run.1 = []
  ∧ vendor_calls run.1 = [Authenticate; Create].
Proof.
  intros Hclient%getBuildApiClient_returns
         Hcreated%createPipelineForDefinition_returns Hid.
  unfold payloadOf in Hcreated.
  unfold_install. rewrite Hclient. simpl. rewrite Hcreated. simpl.
  rewrite Hid. simpl. done.
Qed.

(** C4: when a vendor call throws, the run stops there: the calls made are
    those up to the failing one, each once; the error is logged; the exit
    function is called with status 1 as the last step, and its outcome is
    the outcome of the run (with [process.exit]: the process has exited
    with status 1). *)
Theorem installPipeline_vendor_failure_exits :
  (∀ e,
     (getBuildApiClient w orgName personalAccessToken).2 = Throw e →
     stopped_after [Authenticate] e exitFn run)
  ∧ (∀ client e,
       authenticated client →
       api_createDefinition client payload project = Rejected e →
       stopped_after [Authenticate; Create] e exitFn run)
  ∧ (∀ client created definitionId e,
       authenticated client →
       defined client created →
       id created = Some definitionId →
       api_queueBuild client (buildReferenceOf definitionId) project
       = Rejected e →
       stopped_after [Authenticate; Create; Queue] e exitFn run).
Proof.
  unfold stopped_after. split; [| split].
  - intros e He%getBuildApiClient_throws.
    unfold_install. rewrite He. simpl.
    destruct (exitFn 1); simpl; (repeat split; [set_solver ..]).
  - intros client e Hclient%getBuildApiClient_returns Hreject.
    unfold payloadOf in Hreject.
    unfold_install. rewrite Hclient. simpl. rewrite Hreject. simpl.
    destruct (exitFn 1); simpl; (repeat split; [set_solver ..]).
  - intros client created definitionId e Hclient%getBuildApiClient_returns
           Hcreated%createPipelineForDefinition_returns Hid Hreject.
    unfold payloadOf in Hcreated. unfold buildReferenceOf in Hreject.
    unfold_install. rewrite Hclient. simpl. rewrite Hcreated. simpl.
    rewrite Hid. simpl. rewrite Hreject. simpl.
    destruct (exitFn 1); simpl; (repeat split; [set_solver ..]).
Qed.

End InstallPipeline.

(** ** The monad *)

Lemma bind_fst {A B} (m : M A) (k : A → M B) :
  (m ≫= k).1 = m.1 ++ match m.2 with Return a => (k a).1 | _ => [] end.
Proof.
  destruct m as [t [a | e | s]]; simpl; rewrite ?app_nil_r; try reflexivity.
  by destruct (k a).
Qed.

Lemma bind_snd {A B} (m : M A) (k : A → M B) :
  (m ≫= k).2 = match m.2 with
               | Return a => (k a).2
               | Throw e => Throw e
               | Exit s => Exit s
               end.
Proof.
  destruct m as [t [a | e | s]]; simpl; try reflexivity.
  by destruct (k a).
Qed.

Lemma bind_ret {A B} t (a : A) (k : A → M B) :
  (t, Return a) ≫= k = (t ++ (k a).1, (k a).2).
Proof. unfold mbind, M_bind. by destruct (k a). Qed.

Lemma try_catch_returns {A} t (a : A) handler :
  try_catch (t, Return a) handler = (t, Return a).
Proof. reflexivity. Qed.

Lemma bind_silent {A B} (m : M A) (k : A → M B) :
  m.1 = [] → (∀ a, (k a).1 = []) → (m ≫= k).1 = [].
Proof.
  intros Hm Hk. rewrite bind_fst, Hm. simpl. by destruct (m.2).
Qed.

Lemma bind_returns {A B} (m : M A) (k : A → M B) t b :
  m ≫= k = (t, Return b) →
  ∃ t1 a t2, m = (t1, Return a) ∧ k a = (t2, Return b) ∧ t = t1 ++ t2.
Proof.
  destruct m as [t1 [a | e | s]]; simpl; try discriminate.
  destruct (k a) as [t2 o] eqn:Hk. intros [= <- ->]. eauto 6.
Qed.

Lemma defaulted_given v dflt : v ≠ JUndefined → defaulted v dflt = mret v.
Proof. by destruct v. Qed.

Lemma defaulted_returns v dflt t r :
  defaulted v dflt = (t, Return r) →
  (v = JUndefined ∧ dflt = (t, Return r)) ∨ (v ≠ JUndefined ∧ r = v ∧ t = []).
Proof.
  destruct v; simpl; [by left | ..]; intros [= <- <-]; by right.
Qed.

Lemma defaulted_silent v dflt : dflt.1 = [] → (defaulted v dflt).1 = [].
Proof. by destruct v. Qed.

(** ** The action of [create-pipeline] *)

Lemma logInputs_returns i : logInputs i = ((logInputs i).1, Return tt).
Proof. reflexivity. Qed.

(** Resolving the inputs talks to git only. *)
Lemma resolveInputs_trace w serviceName opts :
  (resolveInputs w serviceName opts).1 = [GetOriginUrl].
Proof.
  unfold resolveInputs. rewrite bind_fst. simpl.
  destruct (getOriginUrl w) as [gitOriginUrl | e]; simpl; [| reflexivity].
  f_equal.
  repeat (apply bind_silent; [apply defaulted_silent | intros ?]);
    try reflexivity.
  - by destruct (getRepositoryName w gitOriginUrl).
  - by destruct (getRepositoryUrl w gitOriginUrl).
Qed.

(** [require_string] is the test [typeof v !== "string"]. *)
Lemma require_string_throws flag v :
  typeof v ≠ "string"
  ↔ require_string flag v
    = throw (Error [Lit flag; Lit " must be of type 'string', ";
                    Lit (typeof v); Lit " given."]).
Proof.
  destruct v; simpl; split; try done; intros _; discriminate.
Qed.

Lemma require_string_returns flag v s :
  require_string flag v = mret s ↔ v = JStr s.
Proof.
  destruct v; simpl; split; try done; by intros [= ->].
Qed.

Lemma validateInputs_throws i :
  typeof (in_pipelineName i) ≠ "string"
  ∨ typeof (in_personalAccessToken i) ≠ "string"
  ∨ typeof (in_orgName i) ≠ "string"
  ∨ typeof (in_repoName i) ≠ "string"
  ∨ typeof (in_repoUrl i) ≠ "string"
  ∨ typeof (in_devopsProject i) ≠ "string" →
  ∃ msg, validateInputs i = ([], Throw (Error msg)).
Proof.
  intros H. unfold validateInputs, require_string. unfold_wrappers.
  destruct (in_pipelineName i); simpl in *; try (eexists; reflexivity).
  destruct (in_personalAccessToken i); simpl in *; try (eexists; reflexivity).
  destruct (in_orgName i); simpl in *; try (eexists; reflexivity).
  destruct (in_repoName i); simpl in *; try (eexists; reflexivity).
  destruct (in_repoUrl i); simpl in *; try (eexists; reflexivity).
  destruct (in_devopsProject i); simpl in *; try (eexists; reflexivity).
  destruct H as [H | [H | [H | [H | [H | H]]]]]; by destruct H.
Qed.

Lemma validateInputs_returns i :
  typeof (in_pipelineName i) = "string" →
  typeof (in_personalAccessToken i) = "string" →
  typeof (in_orgName i) = "string" →
  typeof (in_repoName i) = "string" →
  typeof (in_repoUrl i) = "string" →
  typeof (in_devopsProject i) = "string" →
  ∃ v, validateInputs i = ([], Return v)
       ∧ in_pipelineName i = JStr (v_pipelineName v)
       ∧ in_personalAccessToken i = JStr (v_personalAccessToken v)
       ∧ in_orgName i = JStr (v_orgName v)
       ∧ in_repoName i = JStr (v_repoName v)
       ∧ in_repoUrl i = JStr (v_repoUrl v)
       ∧ in_devopsProject i = JStr (v_devopsProject v).
Proof.
  intros [a Ha]%typeof_string [b Hb]%typeof_string [c Hc]%typeof_string
         [d Hd]%typeof_string [e He]%typeof_string [f Hf]%typeof_string.
  unfold validateInputs. rewrite Ha, Hb, Hc, Hd, He, Hf. simpl.
  eexists. split; [reflexivity |]. simpl. done.
Qed.

(** C3: when, after the options are resolved, one of the six required
    values (pipeline name, personal access token, organization name,
    repository name, repository URL, DevOps project) is not of type string,
    the action logs the inputs, then two error lines, the second one being
    the validation error, and exits the process with status 1; no vendor
    call appears anywhere in the run. *)
Theorem action_rejects_non_string w serviceName opts t i :
  resolveInputs w serviceName opts = (t, Return i) →
  typeof (in_pipelineName i) ≠ "string"
  ∨ typeof (in_personalAccessToken i) ≠ "string"
  ∨ typeof (in_orgName i) ≠ "string"
  ∨ typeof (in_repoName i) ≠ "string"
  ∨ typeof (in_repoUrl i) ≠ "string"
  ∨ typeof (in_devopsProject i) ≠ "string" →
  ∃ msg,
    action w serviceName opts
    = (t ++ (logInputs i).1
         ++ [Log error (Text [Lit "Error occurred validating inputs for ";
                              Interp (JStr serviceName)]);
             Log error (Caught (Error msg));
             ExitCall 1],
       Exit 1)
    ∧ vendor_calls (action w serviceName opts).1 = [].
Proof.
  intros Hres [msg Hthrow]%validateInputs_throws.
  assert (t = [GetOriginUrl]) as Ht.
  { pose proof (resolveInputs_trace w serviceName opts) as Htr.
    by rewrite Hres in Htr. }
  exists msg.
  assert (action w serviceName opts
          = (t ++ (logInputs i).1
               ++ [Log error (Text [Lit "Error occurred validating inputs for ";
                                    Interp (JStr serviceName)]);
                   Log error (Caught (Error msg));
                   ExitCall 1],
             Exit 1)) as Hrun.
  { unfold action. rewrite Hres.
    change (logInputs i) with ((logInputs i).1, Return tt).
    unfold mbind at 1 2, M_bind. rewrite Hthrow. subst t. reflexivity. }
  split; [exact Hrun |].
  rewrite Hrun. subst t. reflexivity.
Qed.

(** The destructuring: when [--pipeline-name] is omitted the pipeline name
    resolves to the service name followed by ["-pipeline"]. *)
Theorem pipelineName_default w serviceName opts t i :
  opt_pipelineName opts = JUndefined →
  resolveInputs w serviceName opts = (t, Return i) →
  in_pipelineName i = JStr (serviceName +:+ "-pipeline").
Proof.
  intros Hopt Hres. unfold resolveInputs in Hres. rewrite Hopt in Hres.
  apply bind_returns in Hres as (t0 & url & t0' & _ & Hres & _).
  apply bind_returns in Hres as (t1 & org' & t1' & _ & Hres & _).
  apply bind_returns in Hres as (t2 & pat & t2' & _ & Hres & _).
  apply bind_returns in Hres as (t3 & prj & t3' & _ & Hres & _).
  apply bind_returns in Hres as (t4 & pn & t4' & Hpn & Hres & _).
  apply bind_returns in Hres as (t5 & rn & t5' & _ & Hres & _).
  apply bind_returns in Hres as (t6 & ru & t6' & _ & Hres & _).
  injection Hres as _ <-. simpl.
  by injection Hpn as _ <-.
Qed.

(** When all six values are strings the action goes on to
    [installPipeline], with [process.exit] as the exit function. *)
Lemma action_installs w serviceName opts t i :
  resolveInputs w serviceName opts = (t, Return i) →
  typeof (in_pipelineName i) = "string" →
  typeof (in_personalAccessToken i) = "string" →
  typeof (in_orgName i) = "string" →
  typeof (in_repoName i) = "string" →
  typeof (in_repoUrl i) = "string" →
  typeof (in_devopsProject i) = "string" →
  ∃ orgName personalAccessToken pipelineName repoName repoUrl devopsProject,
    in_orgName i = JStr orgName
    ∧ in_personalAccessToken i = JStr personalAccessToken
    ∧ in_pipelineName i = JStr pipelineName
    ∧ in_repoName i = JStr repoName
    ∧ in_repoUrl i = JStr repoUrl
    ∧ in_devopsProject i = JStr devopsProject
    ∧ let installed :=
        try_catch
          (installPipeline w serviceName orgName personalAccessToken
             pipelineName repoName repoUrl devopsProject (in_packagesDir i)
             process_exit)
          (λ err,
             log error (Text [Lit "Error occurred installing pipeline for ";
                              Interp (JStr serviceName)]) ;;
             log error (Caught err) ;;
             process_exit_now 1) in
      action w serviceName opts
      = (t ++ (logInputs i).1 ++ installed.1, installed.2).
Proof.
  intros Hres H1 H2 H3 H4 H5 H6.
  destruct (validateInputs_returns i H1 H2 H3 H4 H5 H6)
    as (v & Hv & E1 & E2 & E3 & E4 & E5 & E6).
  exists (v_orgName v), (v_personalAccessToken v), (v_pipelineName v),
         (v_repoName v), (v_repoUrl v), (v_devopsProject v).
  repeat (split; [assumption |]).
  cbv zeta. unfold action.
  rewrite Hres, bind_ret. cbv beta.
  rewrite (logInputs_returns i), bind_ret. cbv beta.
  rewrite Hv, try_catch_returns, bind_ret. cbv beta.
  simpl. reflexivity.
Qed.

Example action_happy_path :
  let run := action (worldWith (Resolved acceptingApi)) "cart" allOptions in
  vendor_calls run.1 = [Authenticate; Create; Queue]
  ∧ builds_queued run.1 = [(buildReferenceOf 42, "shop")]
  ∧ exit_calls run.1 = []
  ∧ run.2 = Return tt.
Proof. vm_compute. done. Qed.

Example action_missing_id_exits :
  let run := action (worldWith (Resolved forgetfulApi)) "cart" allOptions in
  vendor_calls run.1 = [Authenticate; Create]
  ∧ exit_calls run.1 = [1]
  ∧ run.2 = Exit 1.
Proof. vm_compute. done. Qed.

Example action_authentication_fails :
  let run := action (worldWith (Rejected (Foreign "401"))) "cart" allOptions in
  vendor_calls run.1 = [Authenticate]
  ∧ errors_logged run.1 = [Caught (Foreign "401")]
  ∧ run.2 = Exit 1.
Proof. vm_compute. done. Qed.

(** ** The theorems at sample runs *)

Lemma installPipeline_queues_created_id_witness :
  builds_queued
    (installPipeline (worldWith (Resolved acceptingApi)) "cart" "contoso" "pat"
       "cart-ci" "cart" "url" "shop" (Some "packages") returningExit).1
  = [(buildReferenceOf 42, "shop")].
Proof.
  apply (installPipeline_queues_created_id (worldWith (Resolved acceptingApi))
           "cart" "contoso" "pat" "cart-ci" "cart" "url" "shop"
           (Some "packages") returningExit acceptingApi
           (withId 42 (payloadOf "cart" "cart-ci" "cart" "url" (Some "packages")))
           42); reflexivity.
Defined.

Lemma action_rejects_non_string_witness :
  ∃ msg,
    action (worldWith (Resolved acceptingApi)) "cart" noOptions
    = ([GetOriginUrl] ++ (logInputs inputsOfNoOptions).1
         ++ [Log error (Text [Lit "Error occurred validating inputs for ";
                              Interp (JStr "cart")]);
             Log error (Caught (Error msg));
             ExitCall 1],
       Exit 1)
    ∧ vendor_calls
        (action (worldWith (Resolved acceptingApi)) "cart" noOptions).1 = [].
Proof.
  apply (action_rejects_non_string (worldWith (Resolved acceptingApi)) "cart"
           noOptions [GetOriginUrl] inputsOfNoOptions).
  - reflexivity.
  - right. left. simpl. discriminate.
Defined.

Lemma installPipeline_vendor_failure_exits_witness :
  stopped_after [Authenticate] (Foreign "401") process_exit
    (installPipeline (worldWith (Rejected (Foreign "401"))) "cart" "contoso"
       "pat" "cart-ci" "cart" "url" "shop" None process_exit)
  ∧ stopped_after [Authenticate; Create] (Foreign "TF400898") process_exit
      (installPipeline (worldWith (Resolved refusingApi)) "cart" "contoso"
         "pat" "cart-ci" "cart" "url" "shop" None process_exit)
  ∧ stopped_after [Authenticate; Create; Queue] (Foreign "queue is full")
      returningExit
      (installPipeline (worldWith (Resolved busyApi)) "cart" "contoso"
         "pat" "cart-ci" "cart" "url" "shop" None returningExit).
Proof.
  split; [| split].
  - apply (proj1 (installPipeline_vendor_failure_exits
                    (worldWith (Rejected (Foreign "401"))) "cart" "contoso"
                    "pat" "cart-ci" "cart" "url" "shop" None process_exit)).
    reflexivity.
  - apply (proj1 (proj2 (installPipeline_vendor_failure_exits
                           (worldWith (Resolved refusingApi)) "cart" "contoso"
                           "pat" "cart-ci" "cart" "url" "shop" None
                           process_exit)) refusingApi);
      reflexivity.
  - apply (proj2 (proj2 (installPipeline_vendor_failure_exits
                           (worldWith (Resolved busyApi)) "cart" "contoso"
                           "pat" "cart-ci" "cart" "url" "shop" None
                           returningExit)) busyApi
             (withId 42 (payloadOf "cart" "cart-ci" "cart" "url" None)) 42);
      reflexivity.
Defined.

Lemma installPipeline_call_order_witness :
  ∃ client created definitionId,
    (getBuildApiClient (worldWith (Resolved acceptingApi)) "contoso" "pat").2
    = Return client
    ∧ (createPipelineForDefinition client "shop"
         (payloadOf "cart" "cart-ci" "cart" "url" None)).2 = Return created
    ∧ id created = Some definitionId.
Proof.
  apply (proj2 (installPipeline_call_order (worldWith (Resolved acceptingApi))
                  "cart" "contoso" "pat" "cart-ci" "cart" "url" "shop" None
                  returningExit)).
  simpl. do 2 apply list_elem_of_further. apply list_elem_of_here.
Defined.

Lemma installPipeline_forwards_definition_witness :
  definitions_submitted
    (installPipeline (worldWith (Resolved refusingApi)) "cart" "contoso" "pat"
       "cart-ci" "cart" "url" "shop" (Some "packages") process_exit).1
  = [(payloadOf "cart" "cart-ci" "cart" "url" (Some "packages"), "shop")].
Proof.
  apply (installPipeline_forwards_definition (worldWith (Resolved refusingApi))
           "cart" "contoso" "pat" "cart-ci" "cart" "url" "shop"
           (Some "packages") process_exit refusingApi).
  reflexivity.
Defined.

Lemma installPipeline_missing_id_throws_witness :
  (installPipeline (worldWith (Resolved forgetfulApi)) "cart" "contoso" "pat"
     "cart-ci" "cart" "url" "shop" None process_exit).2
  = Throw (Error [Lit "Invalid BuildDefinition created, parameter 'id' is missing from ";
                  Json (payloadOf "cart" "cart-ci" "cart" "url" None)])
  ∧ exit_calls
      (installPipeline (worldWith (Resolved forgetfulApi)) "cart" "contoso"
         "pat" "cart-ci" "cart" "url" "shop" None process_exit).1 = []
  ∧ builds_queued
      (installPipeline (worldWith (Resolved forgetfulApi)) "cart" "contoso"
         "pat" "cart-ci" "cart" "url" "shop" None process_exit).1 = []
  ∧ vendor_calls
      (installPipeline (worldWith (Resolved forgetfulApi)) "cart" "contoso"
         "pat" "cart-ci" "cart" "url" "shop" None process_exit).1
    = [Authenticate; Create].
Proof.
  apply (installPipeline_missing_id_throws (worldWith (Resolved forgetfulApi))
           "cart" "contoso" "pat" "cart-ci" "cart" "url" "shop" None
           process_exit forgetfulApi
           (payloadOf "cart" "cart-ci" "cart" "url" None)); reflexivity.
Defined.

Lemma pipelineName_default_witness :
  in_pipelineName inputsOfNoOptions = JStr "cart-pipeline".
Proof.
  apply (pipelineName_default (worldWith (Resolved acceptingApi)) "cart"
           noOptions [GetOriginUrl] inputsOfNoOptions); reflexivity.
Defined.

(** * Further properties *)

(** ** The two payload builders *)

(** X1: the Azure builder loses nothing: the configuration can be read back
    from the definition, so two configurations that build the same
    definition are the same configuration. *)
Theorem definitionForAzureRepoPipeline_injective (c1 c2 : IAzureRepoPipelineConfig) :
  definitionForAzureRepoPipeline c1 = definitionForAzureRepoPipeline c2 →
  c1 = c2.
Proof.
  destruct c1 as [n1 u1 r1 b1 p1 f1 m1 [v1 |]],
           c2 as [n2 u2 r2 b2 p2 f2 m2 [v2 |]];
    unfold definitionForAzureRepoPipeline; simpl; intros [=]; by subst.
Qed.

Lemma definitionForAzureRepoPipeline_injective_witness :
  pipelineConfigFor "cart" "cart-ci" "cart" "url" None
  = pipelineConfigFor "" "cart-ci" "cart" "url" (Some "").
Proof.
  apply (definitionForAzureRepoPipeline_injective
           (pipelineConfigFor "cart" "cart-ci" "cart" "url" None)
           (pipelineConfigFor "" "cart-ci" "cart" "url" (Some ""))).
  reflexivity.
Defined.

(** X2: the GitHub builder is the Azure builder on the same pipeline fields,
    but for the repository's type, ["github"] instead of ["tfsgit"], and
    for the repository's properties, which hold the service connection
    under [connectedServiceId] and are absent from the Azure payload. *)
Theorem definitionForGithubRepoPipeline_vs_azure (pipelineConfig : IGithubRepoPipelineConfig) :
  let github := definitionForGithubRepoPipeline pipelineConfig in
  let azure := definitionForAzureRepoPipeline (github_pipeline pipelineConfig) in
  badgeEnabled github = badgeEnabled azure
  ∧ triggers github = triggers azure
  ∧ queue github = queue azure
  ∧ queueStatus github = queueStatus azure
  ∧ name github = name azure
  ∧ type github = type azure
  ∧ quality github = quality azure
  ∧ process github = process azure
  ∧ variables github = variables azure
  ∧ id github = id azure
  ∧ ∃ rg ra,
      repository github = Some rg ∧ repository azure = Some ra
      ∧ defaultBranch rg = defaultBranch ra
      ∧ repo_id rg = repo_id ra
      ∧ repo_name rg = repo_name ra
      ∧ repo_url rg = repo_url ra
      ∧ repo_type rg = "github" ∧ repo_type ra = "tfsgit"
      ∧ repo_properties ra = None
      ∧ ∃ properties,
          repo_properties rg = Some properties
          ∧ properties !! "connectedServiceId"
            = Some (serviceConnectionId pipelineConfig)
          ∧ dom properties = {[ "connectedServiceId" ]}.
Proof.
  unfold definitionForGithubRepoPipeline, definitionForAzureRepoPipeline.
  destruct (cfg_variables (github_pipeline pipelineConfig)); simpl;
    (repeat (split; [reflexivity |]));
    do 2 eexists; (repeat (split; [reflexivity |]));
    eexists; (split; [reflexivity |]);
    (split; [apply lookup_singleton_eq | apply dom_singleton_L]).
Qed.

(** ** The wrappers: what a failure looks like to the caller *)

(** X3: [createPipelineForDefinition] calls the vendor exactly once and never
    ends the process.  Whatever goes wrong, a rejection or a [null] answer,
    the caller sees the same [Error], "Error creating definition"; the
    cause is the one entry the wrapper writes to the error log.  On success
    the vendor's definition is returned and nothing is logged as an error. *)
Theorem createPipelineForDefinition_masks_failure
    (buildApi : IBuildApi) (azdoProject : string) (definition : BuildDefinition) :
  let run := createPipelineForDefinition buildApi azdoProject definition in
  vendor_calls run.1 = [Create]
  ∧ exit_calls run.1 = []
  ∧ match api_createDefinition buildApi definition azdoProject with
    | Resolved (Some created) =>
        run.2 = Return created ∧ errors_logged run.1 = []
    | Resolved None =>
        run.2 = Throw (Error [Lit "Error creating definition"])
        ∧ errors_logged run.1 = [Caught invalidDefinitionValue]
    | Rejected e =>
        run.2 = Throw (Error [Lit "Error creating definition"])
        ∧ errors_logged run.1 = [Caught e]
    end.
Proof.
  unfold_wrappers.
  by destruct (api_createDefinition _ _ _) as [[created |] | e].
Qed.

(** X4: [queueBuild] calls the vendor exactly once, with the project it was
    given.  A rejection reaches the caller as the [Error] "Error queueing
    build", its cause being the one entry in the error log; on success the
    vendor's build is returned as it is and nothing is logged. *)
Theorem queueBuild_masks_failure
    (buildApi : IBuildApi) (azdoProject : string) (definitionId : number) :
  let run := queueBuild buildApi azdoProject definitionId in
  vendor_calls run.1 = [Queue]
  ∧ exit_calls run.1 = []
  ∧ match api_queueBuild buildApi (buildReferenceOf definitionId) azdoProject with
    | Resolved build => run = ([QueueBuild (buildReferenceOf definitionId) azdoProject],
                               Return build)
    | Rejected e =>
        run.2 = Throw (Error [Lit "Error queueing build"])
        ∧ errors_logged run.1 = [Caught e]
    end.
Proof.
  unfold_wrappers. unfold buildReferenceOf.
  by destruct (api_queueBuild _ _ _).
Qed.

(** ** [installPipeline]: every way a run can end *)

Section InstallPipelineOutcomes.

Variable w : World.
Variables serviceName orgName personalAccessToken pipelineName : string.
Variables repositoryName repositoryUrl project : string.
Variable packagesDir : option string.
Variable exitFn : Z → outcome unit.

Local Abbreviation run :=
  (installPipeline w serviceName orgName personalAccessToken pipelineName
     repositoryName repositoryUrl project packagesDir exitFn).
Local Abbreviation payload :=
  (payloadOf serviceName pipelineName repositoryName repositoryUrl packagesDir).
Local Abbreviation authenticated client :=
  ((getBuildApiClient w orgName personalAccessToken).2 = Return client).
Local Abbreviation defined client created :=
  ((createPipelineForDefinition client project payload).2 = Return created).

(** X5: a vendor that answers [createDefinition] with [null] is handled like a
    vendor that fails: the run stops after the create call, the invalid
    value is reported in the error log, and the exit function is called
    with status 1. *)
Theorem installPipeline_null_definition_exits client :
  authenticated client →
  api_createDefinition client payload project = Resolved None →
  stopped_after [Authenticate; Create] invalidDefinitionValue exitFn run.
Proof.
  intros Hclient%getBuildApiClient_returns Hnull.
  unfold payloadOf in Hnull. unfold stopped_after, invalidDefinitionValue.
  unfold_install. rewrite Hclient. simpl. rewrite Hnull. simpl.
  destruct (exitFn 1); simpl; (repeat split; [set_solver ..]).
Qed.

Lemma installPipeline_ends :
  (run.2 = Return tt
   ∧ exit_calls run.1 = []
   ∧ errors_logged run.1 = []
   ∧ vendor_calls run.1 = [Authenticate; Create; Queue])
  ∨ (run.2 = exitFn 1
     ∧ exit_calls run.1 = [1]
     ∧ last run.1 = Some (ExitCall 1)
     ∧ errors_logged run.1 ≠ [])
  ∨ (∃ created,
       run.2 = Throw (missingId created)
       ∧ exit_calls run.1 = []
       ∧ vendor_calls run.1 = [Authenticate; Create]).
Proof.
  unfold missingId. unfold_install.
  destruct (WebApi w _ _) as [client | e]; simpl.
  2: { right; left. by destruct (exitFn 1). }
  destruct (api_createDefinition client _ _) as [[created |] | e]; simpl.
  - destruct (id created); simpl.
    + destruct (api_queueBuild client _ _); simpl.
      * by left.
      * right; left. by destruct (exitFn 1).
    + right; right. by exists created.
  - right; left. by destruct (exitFn 1).
  - right; left. by destruct (exitFn 1).
Qed.

(** X6: every run ends in one of three ways.  It completes: all three vendor
    calls were made, nothing was logged as an error and the exit function
    was not called.  Or it gives up: something was logged as an error, the
    exit function was called exactly once, with status 1, as the last thing
    the run did, and the run ends as that call ends.  Or the created
    definition has no id: the run throws, after two vendor calls, without
    calling the exit function.  In particular the exit function is never
    called twice and never with a status other than 1. *)
Theorem installPipeline_outcomes :
  (run.2 = Return tt
   ∧ exit_calls run.1 = []
   ∧ errors_logged run.1 = []
   ∧ vendor_calls run.1 = [Authenticate; Create; Queue])
  ∨ (run.2 = exitFn 1
     ∧ exit_calls run.1 = [1]
     ∧ last run.1 = Some (ExitCall 1)
     ∧ errors_logged run.1 ≠ [])
  ∨ (∃ created,
       run.2 = Throw (missingId created)
       ∧ exit_calls run.1 = []
       ∧ vendor_calls run.1 = [Authenticate; Create]).
Proof.
  unfold missingId. unfold_install.
  destruct (WebApi w _ _) as [client | e]; simpl.
  2: { right; left. by destruct (exitFn 1). }
  destruct (api_createDefinition client _ _) as [[created |] | e]; simpl.
  - destruct (id created); simpl.
    + destruct (api_queueBuild client _ _); simpl.
      * by left.
      * right; left. by destruct (exitFn 1).
    + right; right. by exists created.
  - right; left. by destruct (exitFn 1).
  - right; left. by destruct (exitFn 1).
Qed.

(** X7: a run completes without calling the exit function exactly when the
    client is fetched, the definition is created with an id, and the build
    for that id is accepted. *)
Theorem installPipeline_completes_iff :
  run.2 = Return tt ∧ exit_calls run.1 = []
  ↔ ∃ client created definitionId build,
      authenticated client
      ∧ defined client created
      ∧ id created = Some definitionId
      ∧ api_queueBuild client (buildReferenceOf definitionId) project
        = Resolved build.
Proof.
  setoid_rewrite getBuildApiClient_returns.
  setoid_rewrite createPipelineForDefinition_returns.
  unfold payloadOf, buildReferenceOf.
  split.
  - unfold_install.
    destruct (WebApi w _ _) as [client | e] eqn:Hclient; simpl.
    2: { by destruct (exitFn 1); intros [_ [=]]. }
    destruct (api_createDefinition client _ _) as [[created |] | e] eqn:Hcreated;
      simpl.
    + destruct (id created) as [definitionId |] eqn:Hid; simpl.
      * destruct (api_queueBuild client _ _) as [build | e] eqn:Hbuild; simpl.
        -- intros _. by exists client, created, definitionId, build.
        -- by destruct (exitFn 1); intros [_ [=]].
      * by intros [[=] _].
    + by destruct (exitFn 1); intros [_ [=]].
    + by destruct (exitFn 1); intros [_ [=]].
  - intros (client & created & definitionId & build
            & Hclient & Hcreated & Hid & Hbuild).
    unfold_install. rewrite Hclient. simpl. rewrite Hcreated. simpl.
    rewrite Hid. simpl. rewrite Hbuild. done.
Qed.

End InstallPipelineOutcomes.

Lemma installPipeline_null_definition_exits_witness :
  stopped_after [Authenticate; Create] invalidDefinitionValue returningExit
    (installPipeline (worldWith (Resolved nullApi)) "cart" "contoso" "pat"
       "cart-ci" "cart" "url" "shop" None returningExit).
Proof.
  apply (installPipeline_null_definition_exits (worldWith (Resolved nullApi))
           "cart" "contoso" "pat" "cart-ci" "cart" "url" "shop" None
           returningExit nullApi); reflexivity.
Defined.

(** ** The action: how the inputs are resolved *)

(** What the action does first: it resolves the inputs, then writes the
    seven of them to the debug log. *)
Lemma action_logs_inputs w serviceName opts t i :
  resolveInputs w serviceName opts = (t, Return i) →
  ∃ rest, (action w serviceName opts).1 = t ++ (logInputs i).1 ++ rest.
Proof.
  intros Hres. unfold action. rewrite Hres, bind_ret. cbv beta.
  rewrite (logInputs_returns i), bind_ret. cbn [fst snd].
  eexists. reflexivity.
Qed.

Lemma defaulted_outcome v dflt r :
  (defaulted v dflt).2 = Return r →
  (v = JUndefined ∧ dflt.2 = Return r) ∨ (v ≠ JUndefined ∧ r = v).
Proof.
  destruct v; simpl; [by left | ..]; intros [= <-]; by right.
Qed.

Lemma gitutils_default_outcome (helper : result string) r :
  (s ← sync helper; mret (JStr s) : M jsval).2 = Return r →
  ∃ s, helper = Resolved s ∧ r = JStr s.
Proof.
  unfold sync. destruct helper as [s | e]; simpl; [| discriminate].
  intros [= <-]. by exists s.
Qed.

(** What a successful resolution says about each input. *)
Lemma resolveInputs_returns w serviceName opts t i :
  resolveInputs w serviceName opts = (t, Return i) →
  ∃ gitOriginUrl,
    getOriginUrl w = Resolved gitOriginUrl
    ∧ (defaulted (opt_orgName opts)
         (mret (config_field (Config_azure_devops w) org))).2
      = Return (in_orgName i)
    ∧ (defaulted (opt_personalAccessToken opts)
         (mret (config_field (Config_azure_devops w) access_token))).2
      = Return (in_personalAccessToken i)
    ∧ (defaulted (opt_devopsProject opts)
         (mret (config_field (Config_azure_devops w) project))).2
      = Return (in_devopsProject i)
    ∧ (defaulted (opt_pipelineName opts)
         (mret (JStr (serviceName +:+ "-pipeline")))).2
      = Return (in_pipelineName i)
    ∧ in_packagesDir i = opt_packagesDir opts
    ∧ (defaulted (opt_repoName opts)
         (s ← sync (getRepositoryName w gitOriginUrl); mret (JStr s))).2
      = Return (in_repoName i)
    ∧ (defaulted (opt_repoUrl opts)
         (s ← sync (getRepositoryUrl w gitOriginUrl); mret (JStr s))).2
      = Return (in_repoUrl i).
Proof.
  intros Hres. unfold resolveInputs in Hres.
  apply bind_returns in Hres as (t0 & url & t0' & Hurl & Hres & _).
  apply bind_returns in Hres as (t1 & v1 & t1' & H1 & Hres & _).
  apply bind_returns in Hres as (t2 & v2 & t2' & H2 & Hres & _).
  apply bind_returns in Hres as (t3 & v3 & t3' & H3 & Hres & _).
  apply bind_returns in Hres as (t4 & v4 & t4' & H4 & Hres & _).
  apply bind_returns in Hres as (t5 & v5 & t5' & H5 & Hres & _).
  apply bind_returns in Hres as (t6 & v6 & t6' & H6 & Hres & _).
  injection Hres as _ <-.
  exists url. split.
  { unfold call in Hurl. by destruct (getOriginUrl w); simplify_eq. }
  rewrite H1, H2, H3, H4, H5, H6. done.
Qed.

(** X11: an option that is given wins: the resolved value is the option's value
    as it is, whatever the configuration holds and whatever the origin URL
    is; [packagesDir] is always the option's.  [null] counts as given.
    The resolved values are the ones the action goes on with: its trace is
    the resolution followed by the debug lines of these seven values. *)
Theorem resolveInputs_option_wins w serviceName opts t i :
  resolveInputs w serviceName opts = (t, Return i) →
  (opt_orgName opts ≠ JUndefined → in_orgName i = opt_orgName opts)
  ∧ (opt_personalAccessToken opts ≠ JUndefined →
     in_personalAccessToken i = opt_personalAccessToken opts)
  ∧ (opt_devopsProject opts ≠ JUndefined →
     in_devopsProject i = opt_devopsProject opts)
  ∧ (opt_pipelineName opts ≠ JUndefined →
     in_pipelineName i = opt_pipelineName opts)
  ∧ (opt_repoName opts ≠ JUndefined → in_repoName i = opt_repoName opts)
  ∧ (opt_repoUrl opts ≠ JUndefined → in_repoUrl i = opt_repoUrl opts)
  ∧ in_packagesDir i = opt_packagesDir opts
  ∧ ∃ rest, (action w serviceName opts).1 = t ++ (logInputs i).1 ++ rest.
Proof.
  intros Hres. pose proof (action_logs_inputs _ _ _ _ _ Hres) as Hlogs.
  apply resolveInputs_returns in Hres
    as (url & _ & H1 & H2 & H3 & H4 & H5 & H6 & H7).
  apply defaulted_outcome in H1, H2, H3, H4, H6, H7.
  repeat split; [| | | | | | exact H5 | exact Hlogs]; intros Hne.
  - by destruct H1 as [[? _] | [_ ->]].
  - by destruct H2 as [[? _] | [_ ->]].
  - by destruct H3 as [[? _] | [_ ->]].
  - by destruct H4 as [[? _] | [_ ->]].
  - by destruct H6 as [[? _] | [_ ->]].
  - by destruct H7 as [[? _] | [_ ->]].
Qed.

Lemma resolveInputs_option_wins_witness :
  in_orgName inputsOfAllOptions = JStr "contoso"
  ∧ in_repoName inputsOfAllOptions = JStr "cart".
Proof.
  pose proof (resolveInputs_option_wins foreignOriginWorld "cart" allOptions
                [GetOriginUrl] inputsOfAllOptions eq_refl)
    as (H1 & _ & _ & _ & H5 & _).
  split; [apply H1 | apply H5]; discriminate.
Defined.

(** X12: an option that is omitted falls back: organization, access token and
    project to the [azure_devops] section of the configuration
    ([undefined] when there is no such section), repository name and URL to
    what [gitutils] reads from the origin URL.  The resolved values are the
    ones the action goes on with: its trace is the resolution followed by
    the debug lines of these values. *)
Theorem resolveInputs_fallback w serviceName opts t i :
  resolveInputs w serviceName opts = (t, Return i) →
  (opt_orgName opts = JUndefined →
   in_orgName i = config_field (Config_azure_devops w) org)
  ∧ (opt_personalAccessToken opts = JUndefined →
     in_personalAccessToken i
     = config_field (Config_azure_devops w) access_token)
  ∧ (opt_devopsProject opts = JUndefined →
     in_devopsProject i = config_field (Config_azure_devops w) project)
  ∧ (Config_azure_devops w = None →
     opt_orgName opts = JUndefined → in_orgName i = JUndefined)
  ∧ (∃ rest, (action w serviceName opts).1 = t ++ (logInputs i).1 ++ rest)
  ∧ ∃ gitOriginUrl,
      getOriginUrl w = Resolved gitOriginUrl
      ∧ (opt_repoName opts = JUndefined →
         ∃ s, getRepositoryName w gitOriginUrl = Resolved s
              ∧ in_repoName i = JStr s)
      ∧ (opt_repoUrl opts = JUndefined →
         ∃ s, getRepositoryUrl w gitOriginUrl = Resolved s
              ∧ in_repoUrl i = JStr s).
Proof.
  intros Hres. pose proof (action_logs_inputs _ _ _ _ _ Hres) as Hlogs.
  apply resolveInputs_returns in Hres
    as (url & Hurl & H1 & H2 & H3 & H4 & H5 & H6 & H7).
  apply defaulted_outcome in H1, H2, H3, H6, H7.
  repeat split.
  - intros E. destruct H1 as [[_ [= <-]] | [? _]]; done.
  - intros E. destruct H2 as [[_ [= <-]] | [? _]]; done.
  - intros E. destruct H3 as [[_ [= <-]] | [? _]]; done.
  - intros Hcfg E. rewrite Hcfg in H1.
    destruct H1 as [[_ [= <-]] | [? _]]; done.
  - exact Hlogs.
  - exists url. split; [done |]. split.
    + intros E. destruct H6 as [[_ H6] | [? _]]; [| done].
      by apply gitutils_default_outcome in H6.
    + intros E. destruct H7 as [[_ H7] | [? _]]; [| done].
      by apply gitutils_default_outcome in H7.
Qed.

Lemma resolveInputs_fallback_witness :
  in_orgName inputsOfConfiguration = JStr "contoso"
  ∧ in_personalAccessToken inputsOfConfiguration = JStr "pat"
  ∧ in_devopsProject inputsOfConfiguration = JStr "shop".
Proof.
  pose proof (resolveInputs_fallback
                (configuredWorld (Resolved acceptingApi)) "cart" noOptions
                [GetOriginUrl] inputsOfConfiguration eq_refl)
    as (H1 & H2 & H3 & _).
  split; [exact (H1 eq_refl) | split; [exact (H2 eq_refl) | exact (H3 eq_refl)]].
Defined.

Lemma mret_bind {A B} (a : A) (k : A → M B) : mret a ≫= k = k a.
Proof. unfold mret, M_ret, mbind, M_bind. by destruct (k a). Qed.

Lemma defaulted_pure v d :
  defaulted v (mret d) = mret (match v with JUndefined => d | _ => v end).
Proof. by destruct v. Qed.

Lemma defaulted_given_or_resolved v (helper : result string) :
  v ≠ JUndefined ∨ (∃ s, helper = Resolved s) →
  ∃ r, defaulted v (s ← sync helper; mret (JStr s)) = mret r.
Proof.
  intros [Hne | [s ->]].
  - exists v. by destruct v.
  - destruct v; by eexists.
Qed.

(** ** The action: failures before the validation *)

(** X13: outside of a git repository the action fails before anything else
    happens, even when every option is given: the rejection of
    [getOriginUrl] leaves the action as it is, nothing is logged, the
    process is not exited and no vendor call is made. *)
Theorem action_without_origin w serviceName opts e :
  getOriginUrl w = Rejected e →
  action w serviceName opts = ([GetOriginUrl], Throw e).
Proof.
  intros Hgit. unfold action, resolveInputs, call. by rewrite Hgit.
Qed.

Lemma action_without_origin_witness :
  action noGitWorld "cart" allOptions
  = ([GetOriginUrl], Throw (Foreign "not a git repository")).
Proof.
  apply action_without_origin. reflexivity.
Defined.

(** X14: when the repository name (or URL) is omitted and [gitutils] cannot read
    it from the origin URL, the error leaves the action as it is: nothing
    is logged, the process is not exited, no vendor call is made. *)
Theorem action_unreadable_origin w serviceName opts gitOriginUrl e :
  getOriginUrl w = Resolved gitOriginUrl →
  (opt_repoName opts = JUndefined
   ∧ getRepositoryName w gitOriginUrl = Rejected e)
  ∨ ((opt_repoName opts ≠ JUndefined
      ∨ ∃ s, getRepositoryName w gitOriginUrl = Resolved s)
     ∧ opt_repoUrl opts = JUndefined
     ∧ getRepositoryUrl w gitOriginUrl = Rejected e) →
  action w serviceName opts = ([GetOriginUrl], Throw e).
Proof.
  intros Hgit Hcase.
  assert (resolveInputs w serviceName opts = ([GetOriginUrl], Throw e)) as Hres.
  { unfold resolveInputs, call. rewrite Hgit, bind_ret. cbv beta.
    rewrite !defaulted_pure, !mret_bind.
    destruct Hcase as [[Hopt Hrej] | (Hname & Hopt & Hrej)].
    - rewrite Hopt, Hrej. reflexivity.
    - destruct (defaulted_given_or_resolved _ _ Hname) as [r ->].
      rewrite mret_bind, Hopt, Hrej. reflexivity. }
  unfold action. by rewrite Hres.
Qed.

Lemma action_unreadable_origin_witness :
  action foreignOriginWorld "cart" noOptions
  = ([GetOriginUrl], Throw (Foreign "unsupported origin")).
Proof.
  apply (action_unreadable_origin foreignOriginWorld "cart" noOptions
           "git@example.org:shop/cart.git").
  - reflexivity.
  - left. split; reflexivity.
Defined.

(** ** The action: validation *)

(** The action on inputs that fail the validation. *)
Lemma action_invalid w serviceName opts t i err :
  resolveInputs w serviceName opts = (t, Return i) →
  validateInputs i = ([], Throw err) →
  action w serviceName opts
  = (t ++ (logInputs i).1
       ++ [Log error (Text [Lit "Error occurred validating inputs for ";
                            Interp (JStr serviceName)]);
           Log error (Caught err);
           ExitCall 1],
     Exit 1).
Proof.
  intros Hres Hthrow. unfold action. rewrite Hres.
  change (logInputs i) with ((logInputs i).1, Return tt).
  unfold mbind at 1 2, M_bind. rewrite Hthrow. reflexivity.
Qed.

Lemma validateInputs_find (i : Inputs) :
  match List.find not_a_string (validationChecks i) with
  | Some check => validateInputs i = throw (validationError check)
  | None =>
      ∃ v, validateInputs i = mret v
           ∧ in_pipelineName i = JStr (v_pipelineName v)
           ∧ in_personalAccessToken i = JStr (v_personalAccessToken v)
           ∧ in_orgName i = JStr (v_orgName v)
           ∧ in_repoName i = JStr (v_repoName v)
           ∧ in_repoUrl i = JStr (v_repoUrl v)
           ∧ in_devopsProject i = JStr (v_devopsProject v)
  end.
Proof.
  unfold validationChecks, validateInputs, validationError, not_a_string.
  destruct (in_pipelineName i); try reflexivity.
  destruct (in_personalAccessToken i); try reflexivity.
  destruct (in_orgName i); try reflexivity.
  destruct (in_repoName i); try reflexivity.
  destruct (in_repoUrl i); try reflexivity.
  destruct (in_devopsProject i); try reflexivity.
  simpl. eexists. split; [reflexivity |]. done.
Qed.

(** X15: the tests run in source order and the first one that fails decides the
    error; the test of the organization name reports the flag as
    [--org-url].  Validation itself logs nothing and calls nothing; when no
    test fails it yields the six values as strings.  In the action, on
    inputs that resolved, the error of the first failing test is the one
    that is logged before the process exits with status 1. *)
Theorem validateInputs_first_failure (i : Inputs) :
  match List.find not_a_string (validationChecks i) with
  | Some check =>
      validateInputs i = throw (validationError check)
      ∧ ∀ w serviceName opts t,
          resolveInputs w serviceName opts = (t, Return i) →
          action w serviceName opts
          = (t ++ (logInputs i).1
               ++ [Log error (Text [Lit "Error occurred validating inputs for ";
                                    Interp (JStr serviceName)]);
                   Log error (Caught (validationError check));
                   ExitCall 1],
             Exit 1)
  | None =>
      ∃ v, validateInputs i = mret v
           ∧ in_pipelineName i = JStr (v_pipelineName v)
           ∧ in_personalAccessToken i = JStr (v_personalAccessToken v)
           ∧ in_orgName i = JStr (v_orgName v)
           ∧ in_repoName i = JStr (v_repoName v)
           ∧ in_repoUrl i = JStr (v_repoUrl v)
           ∧ in_devopsProject i = JStr (v_devopsProject v)
  end.
Proof.
  pose proof (validateInputs_find i) as Hfind.
  destruct (List.find not_a_string (validationChecks i)) as [check |];
    [| exact Hfind].
  split; [exact Hfind |].
  intros w serviceName opts t Hres.
  by apply action_invalid.
Qed.

(** ** The action: from the validation to the end *)

(** The handler of the action's second [try] block. *)
Local Notation "'installHandler' serviceName" :=
  (λ err : thrown,
     log error (Text [Lit "Error occurred installing pipeline for ";
                      Interp (JStr serviceName)]) ;;
     log error (Caught err) ;;
     process_exit_now 1)
  (at level 10, serviceName at level 9, only parsing).

(** What the second [try] block makes of a body: a thrown error becomes two
    error lines and [process.exit(1)]; anything else is left alone. *)
Lemma try_catch_installHandler (body : M unit) serviceName :
  try_catch body (installHandler serviceName)
  = (body.1 ++ match body.2 with
               | Throw err =>
                   [Log error (Text [Lit "Error occurred installing pipeline for ";
                                     Interp (JStr serviceName)]);
                    Log error (Caught err);
                    ExitCall 1]
               | _ => []
               end,
     match body.2 with
     | Throw _ => Exit 1
     | ended => ended
     end).
Proof.
  destruct body as [t [[] | err | s]]; simpl; by rewrite ?app_nil_r.
Qed.

(** The action on inputs that pass the validation, in terms of the run of
    [installPipeline] it starts. *)
Lemma action_valid w serviceName opts t i
    orgName personalAccessToken pipelineName repoName repoUrl devopsProject :
  resolveInputs w serviceName opts = (t, Return i) →
  in_orgName i = JStr orgName →
  in_personalAccessToken i = JStr personalAccessToken →
  in_pipelineName i = JStr pipelineName →
  in_repoName i = JStr repoName →
  in_repoUrl i = JStr repoUrl →
  in_devopsProject i = JStr devopsProject →
  let run :=
    installPipeline w serviceName orgName personalAccessToken pipelineName
      repoName repoUrl devopsProject (in_packagesDir i) process_exit in
  action w serviceName opts
  = ([GetOriginUrl] ++ (logInputs i).1 ++ run.1
       ++ match run.2 with
          | Throw err =>
              [Log error (Text [Lit "Error occurred installing pipeline for ";
                                Interp (JStr serviceName)]);
               Log error (Caught err);
               ExitCall 1]
          | _ => []
          end,
     match run.2 with
     | Throw _ => Exit 1
     | ended => ended
     end).
Proof.
  intros Hres E1 E2 E3 E4 E5 E6 run.
  assert (t = [GetOriginUrl]) as ->.
  { pose proof (resolveInputs_trace w serviceName opts) as Htr.
    by rewrite Hres in Htr. }
  destruct (action_installs w serviceName opts [GetOriginUrl] i Hres)
    as (a & b & c & d & e & f & A1 & A2 & A3 & A4 & A5 & A6 & Hrun);
    try (rewrite ?E1, ?E2, ?E3, ?E4, ?E5, ?E6; reflexivity).
  rewrite E1 in A1. rewrite E2 in A2. rewrite E3 in A3.
  rewrite E4 in A4. rewrite E5 in A5. rewrite E6 in A6.
  simplify_eq. cbv zeta in Hrun. rewrite Hrun.
  rewrite try_catch_installHandler. reflexivity.
Qed.

Lemma observations_of_action_valid (t1 t2 : trace) :
  vendor_calls ([GetOriginUrl] ++ t1 ++ t2) = vendor_calls t1 ++ vendor_calls t2
  ∧ definitions_submitted ([GetOriginUrl] ++ t1 ++ t2)
    = definitions_submitted t1 ++ definitions_submitted t2
  ∧ builds_queued ([GetOriginUrl] ++ t1 ++ t2)
    = builds_queued t1 ++ builds_queued t2
  ∧ exit_calls ([GetOriginUrl] ++ t1 ++ t2) = exit_calls t1 ++ exit_calls t2
  ∧ errors_logged ([GetOriginUrl] ++ t1 ++ t2)
    = errors_logged t1 ++ errors_logged t2.
Proof.
  unfold vendor_calls, definitions_submitted, builds_queued, exit_calls,
    errors_logged.
  rewrite !omap_app. done.
Qed.

(** X17: once the inputs pass the validation, the action's dealings with the
    vendor are those of [installPipeline] on the resolved inputs, with the
    option's [packagesDir]: the same calls, the same definitions submitted,
    the same builds queued, nothing added.  The action ends as that run
    ends, but for an error thrown by the run, which becomes an exit with
    status 1. *)
Theorem action_runs_installPipeline w serviceName opts t i
    orgName personalAccessToken pipelineName repoName repoUrl devopsProject :
  resolveInputs w serviceName opts = (t, Return i) →
  in_orgName i = JStr orgName →
  in_personalAccessToken i = JStr personalAccessToken →
  in_pipelineName i = JStr pipelineName →
  in_repoName i = JStr repoName →
  in_repoUrl i = JStr repoUrl →
  in_devopsProject i = JStr devopsProject →
  let run :=
    installPipeline w serviceName orgName personalAccessToken pipelineName
      repoName repoUrl devopsProject (opt_packagesDir opts) process_exit in
  vendor_calls (action w serviceName opts).1 = vendor_calls run.1
  ∧ definitions_submitted (action w serviceName opts).1
    = definitions_submitted run.1
  ∧ builds_queued (action w serviceName opts).1 = builds_queued run.1
  ∧ (action w serviceName opts).2
    = match run.2 with
      | Throw _ => Exit 1
      | ended => ended
      end.
Proof.
  intros Hres E1 E2 E3 E4 E5 E6.
  pose proof (action_valid _ _ _ _ _ _ _ _ _ _ _ Hres E1 E2 E3 E4 E5 E6) as Hrun.
  destruct (resolveInputs_returns _ _ _ _ _ Hres) as (_ & _ & _ & _ & _ & _ & Hdir & _).
  rewrite Hdir in Hrun. cbv zeta in *. rewrite Hrun. cbn [fst snd].
  destruct (observations_of_action_valid (logInputs i).1
              ((installPipeline w serviceName orgName personalAccessToken
                  pipelineName repoName repoUrl devopsProject
                  (opt_packagesDir opts) process_exit).1
               ++ match (installPipeline w serviceName orgName
                           personalAccessToken pipelineName repoName repoUrl
                           devopsProject (opt_packagesDir opts)
                           process_exit).2 with
                  | Throw err =>
                      [Log error (Text [Lit "Error occurred installing pipeline for ";
                                        Interp (JStr serviceName)]);
                       Log error (Caught err);
                       ExitCall 1]
                  | _ => []
                  end))
    as (-> & -> & -> & _).
  unfold vendor_calls, definitions_submitted, builds_queued.
  rewrite !omap_app.
  destruct ((installPipeline _ _ _ _ _ _ _ _ _ _).2); simpl;
    by rewrite ?app_nil_r.
Qed.

Lemma action_runs_installPipeline_witness :
  vendor_calls (action (worldWith (Resolved busyApi)) "cart" allOptions).1
  = [Authenticate; Create; Queue]
  ∧ (action (worldWith (Resolved busyApi)) "cart" allOptions).2 = Exit 1.
Proof.
  pose proof (action_runs_installPipeline (worldWith (Resolved busyApi)) "cart"
                allOptions [GetOriginUrl] inputsOfAllOptions
                "contoso" "pat" "cart-ci" "cart"
                "https://dev.azure.com/contoso/shop/_git/cart" "shop"
                eq_refl eq_refl eq_refl eq_refl eq_refl eq_refl eq_refl)
    as (H1 & _ & _ & H4).
  split; [exact H1 | exact H4].
Defined.

Lemma bind_no_exit {A B} (m : M A) (k : A → M B) :
  (∀ s, m.2 ≠ Exit s) → (∀ a s, (k a).2 ≠ Exit s) →
  ∀ s, (m ≫= k).2 ≠ Exit s.
Proof.
  intros Hm Hk s. rewrite bind_snd.
  destruct (m.2) as [a | e | s'] eqn:E; [apply Hk | done |].
  by destruct (Hm s').
Qed.

Lemma defaulted_no_exit v dflt :
  (∀ s, dflt.2 ≠ Exit s) → ∀ s, (defaulted v dflt).2 ≠ Exit s.
Proof. by destruct v. Qed.

Lemma sync_no_exit {A} (r : result A) s : (sync r).2 ≠ Exit s.
Proof. by destruct r. Qed.

(** Resolving the inputs never ends the process. *)
Lemma resolveInputs_no_exit w serviceName opts s :
  (resolveInputs w serviceName opts).2 ≠ Exit s.
Proof.
  revert s. unfold resolveInputs.
  apply bind_no_exit; [intros s; unfold call; by destruct (getOriginUrl w) |].
  intros gitOriginUrl.
  repeat (apply bind_no_exit;
          [apply defaulted_no_exit;
           first [ done
                 | apply bind_no_exit; [apply sync_no_exit | done] ]
          | intros ?]).
  done.
Qed.

Section InstallPipelineRuns.

Variable w : World.
Variables serviceName orgName personalAccessToken pipelineName : string.
Variables repositoryName repositoryUrl project : string.
Variable packagesDir : option string.
Variable exitFn : Z → outcome unit.

Local Abbreviation run :=
  (installPipeline w serviceName orgName personalAccessToken pipelineName
     repositoryName repositoryUrl project packagesDir exitFn).
Local Abbreviation payload :=
  (payloadOf serviceName pipelineName repositoryName repositoryUrl packagesDir).

Lemma installPipeline_missing_id_run client created :
  (getBuildApiClient w orgName personalAccessToken).2 = Return client →
  (createPipelineForDefinition client project payload).2 = Return created →
  id created = None →
  run.2 = Throw (missingId created)
  ∧ exit_calls run.1 = []
  ∧ builds_queued run.1 = []
  ∧ errors_logged run.1 = [].
Proof.
  intros Hclient%getBuildApiClient_returns
         Hcreated%createPipelineForDefinition_returns Hid.
  unfold payloadOf in Hcreated. unfold missingId.
  unfold_install. rewrite Hclient. simpl. rewrite Hcreated. simpl.
  rewrite Hid. simpl. done.
Qed.

Lemma installPipeline_success_run client created definitionId build :
  (getBuildApiClient w orgName personalAccessToken).2 = Return client →
  (createPipelineForDefinition client project payload).2 = Return created →
  id created = Some definitionId →
  api_queueBuild client (buildReferenceOf definitionId) project
  = Resolved build →
  run.2 = Return tt
  ∧ exit_calls run.1 = []
  ∧ errors_logged run.1 = []
  ∧ definitions_submitted run.1 = [(payload, project)]
  ∧ builds_queued run.1 = [(buildReferenceOf definitionId, project)].
Proof.
  intros Hclient%getBuildApiClient_returns
         Hcreated%createPipelineForDefinition_returns Hid Hbuild.
  unfold payloadOf in Hcreated. unfold buildReferenceOf in Hbuild.
  unfold_install. rewrite Hclient. simpl. rewrite Hcreated. simpl.
  rewrite Hid. simpl. rewrite Hbuild. done.
Qed.

End InstallPipelineRuns.

Lemma logInputs_observations i :
  exit_calls (logInputs i).1 = []
  ∧ errors_logged (logInputs i).1 = []
  ∧ builds_queued (logInputs i).1 = []
  ∧ definitions_submitted (logInputs i).1 = [].
Proof. done. Qed.

Lemma validation_decided i :
  (typeof (in_pipelineName i) = "string"
   ∧ typeof (in_personalAccessToken i) = "string"
   ∧ typeof (in_orgName i) = "string"
   ∧ typeof (in_repoName i) = "string"
   ∧ typeof (in_repoUrl i) = "string"
   ∧ typeof (in_devopsProject i) = "string")
  ∨ (typeof (in_pipelineName i) ≠ "string"
     ∨ typeof (in_personalAccessToken i) ≠ "string"
     ∨ typeof (in_orgName i) ≠ "string"
     ∨ typeof (in_repoName i) ≠ "string"
     ∨ typeof (in_repoUrl i) ≠ "string"
     ∨ typeof (in_devopsProject i) ≠ "string").
Proof.
  destruct (decide (typeof (in_pipelineName i) = "string")); [| tauto].
  destruct (decide (typeof (in_personalAccessToken i) = "string")); [| tauto].
  destruct (decide (typeof (in_orgName i) = "string")); [| tauto].
  destruct (decide (typeof (in_repoName i) = "string")); [| tauto].
  destruct (decide (typeof (in_repoUrl i) = "string")); [| tauto].
  destruct (decide (typeof (in_devopsProject i) = "string")); tauto.
Qed.

Lemma ends_of_valid_action (logs : trace) (r : M unit) serviceName :
  exit_calls logs = [] →
  errors_logged logs = [] →
  (r.2 = Return tt ∧ exit_calls r.1 = [])
  ∨ (r.2 = Exit 1 ∧ exit_calls r.1 = [1] ∧ last r.1 = Some (ExitCall 1)
     ∧ errors_logged r.1 ≠ [])
  ∨ (∃ e, r.2 = Throw e ∧ exit_calls r.1 = []) →
  let tr := [GetOriginUrl] ++ logs ++ r.1
            ++ match r.2 with
               | Throw err =>
                   [Log error (Text [Lit "Error occurred installing pipeline for ";
                                     Interp (JStr serviceName)]);
                    Log error (Caught err);
                    ExitCall 1]
               | _ => []
               end in
  let out := match r.2 with
             | Throw _ => Exit 1
             | ended => ended
             end in
  (out = Return tt ∧ exit_calls tr = [])
  ∨ (out = Exit 1 ∧ exit_calls tr = [1] ∧ last tr = Some (ExitCall 1)
     ∧ errors_logged tr ≠ []).
Proof.
  intros Hlogs_exit Hlogs_err Hends. cbv zeta.
  destruct (observations_of_action_valid logs
              (r.1 ++ match r.2 with
                      | Throw err =>
                          [Log error (Text [Lit "Error occurred installing pipeline for ";
                                            Interp (JStr serviceName)]);
                           Log error (Caught err);
                           ExitCall 1]
                      | _ => []
                      end))
    as (_ & _ & _ & -> & ->).
  rewrite Hlogs_exit, Hlogs_err, !app_nil_l.
  destruct r as [t o]. cbn [fst snd] in *.
  destruct Hends as [[-> Hexit] | [(-> & Hexit & Hlast & Herr) | (e & -> & Hexit)]].
  - left. by rewrite app_nil_r.
  - right. rewrite !app_nil_r. repeat split; try done.
    by rewrite !last_app, Hlast.
  - right. unfold exit_calls, errors_logged in *. rewrite !omap_app.
    repeat split.
    + by rewrite Hexit.
    + by rewrite !last_app.
    + simpl. intros Hnil. by apply app_eq_nil in Hnil as [_ [=]].
Qed.

(** X20: every run of the action ends in one of three ways.  It completes,
    without any call of [process.exit].  Or the process exits: [process.exit]
    is called exactly once, with status 1, as the last thing the action
    does, after something was logged as an error.  Or an error leaves the
    action: only an error from resolving the inputs does, and then nothing
    but the call to git has happened.  No other exit status is ever used,
    and no error of the validation or of [installPipeline] escapes. *)
Theorem action_outcomes w serviceName opts :
  let run := action w serviceName opts in
  (run.2 = Return tt ∧ exit_calls run.1 = [])
  ∨ (run.2 = Exit 1
     ∧ exit_calls run.1 = [1]
     ∧ last run.1 = Some (ExitCall 1)
     ∧ errors_logged run.1 ≠ [])
  ∨ (∃ e, run = ([GetOriginUrl], Throw e)
          ∧ (resolveInputs w serviceName opts).2 = Throw e).
Proof.
  cbv zeta.
  pose proof (resolveInputs_trace w serviceName opts) as Htrace.
  pose proof (resolveInputs_no_exit w serviceName opts) as Hnoexit.
  destruct (resolveInputs w serviceName opts) as [t [i | e | s]] eqn:Hres;
    simpl in Htrace; subst t.
  3: { by destruct (Hnoexit s). }
  2: { right; right. exists e. split; [| done].
       unfold action. by rewrite Hres. }
  destruct (validation_decided i) as [(H1 & H2 & H3 & H4 & H5 & H6) | Hbad].
  - destruct (validateInputs_returns i H1 H2 H3 H4 H5 H6)
      as (v & _ & E1 & E2 & E3 & E4 & E5 & E6).
    rewrite (action_valid _ _ _ _ _ _ _ _ _ _ _ Hres E3 E2 E1 E4 E5 E6).
    cbn [fst snd].
    destruct (logInputs_observations i) as (Hlogs_exit & Hlogs_err & _).
    destruct (ends_of_valid_action (logInputs i).1
                (installPipeline w serviceName (v_orgName v)
                   (v_personalAccessToken v) (v_pipelineName v)
                   (v_repoName v) (v_repoUrl v) (v_devopsProject v)
                   (in_packagesDir i) process_exit)
                serviceName Hlogs_exit Hlogs_err) as [Hend | Hend].
    + destruct (installPipeline_ends w serviceName (v_orgName v)
                  (v_personalAccessToken v) (v_pipelineName v) (v_repoName v)
                  (v_repoUrl v) (v_devopsProject v) (in_packagesDir i)
                  process_exit)
        as [(Hend & Hexit & _) | [(Hend & Hexit & Hlast & Herr)
                                 | (created & Hend & Hexit & _)]].
      * by left.
      * right; left. by rewrite Hend.
      * right; right. by exists (missingId created).
    + by left.
    + by (right; left).
  - destruct (validateInputs_throws i Hbad) as [msg Hthrow].
    rewrite (action_invalid _ _ _ _ _ _ Hres Hthrow). cbn [fst snd].
    right; left. split; [done |]. split; [done |]. split.
    + by rewrite !last_app.
    + done.
Qed.

(** X18: the error that [installPipeline] throws for a definition without an id
    does not leave the action: it is logged, and the process exits with
    status 1 without a build having been queued. *)
Theorem action_catches_missing_id w serviceName opts t i
    orgName personalAccessToken pipelineName repoName repoUrl devopsProject
    client created :
  resolveInputs w serviceName opts = (t, Return i) →
  in_orgName i = JStr orgName →
  in_personalAccessToken i = JStr personalAccessToken →
  in_pipelineName i = JStr pipelineName →
  in_repoName i = JStr repoName →
  in_repoUrl i = JStr repoUrl →
  in_devopsProject i = JStr devopsProject →
  (getBuildApiClient w orgName personalAccessToken).2 = Return client →
  (createPipelineForDefinition client devopsProject
     (payloadOf serviceName pipelineName repoName repoUrl (in_packagesDir i))).2
  = Return created →
  id created = None →
  (action w serviceName opts).2 = Exit 1
  ∧ errors_logged (action w serviceName opts).1
    = [Text [Lit "Error occurred installing pipeline for ";
             Interp (JStr serviceName)];
       Caught (missingId created)]
  ∧ builds_queued (action w serviceName opts).1 = []
  ∧ exit_calls (action w serviceName opts).1 = [1].
Proof.
  intros Hres E1 E2 E3 E4 E5 E6 Hclient Hcreated Hid.
  rewrite (action_valid _ _ _ _ _ _ _ _ _ _ _ Hres E1 E2 E3 E4 E5 E6).
  destruct (installPipeline_missing_id_run w serviceName orgName
              personalAccessToken pipelineName repoName repoUrl devopsProject
              (in_packagesDir i) process_exit client created
              Hclient Hcreated Hid) as (Hend & Hexit & Hbuilds & Herr).
  cbn [fst snd]. rewrite Hend.
  destruct (observations_of_action_valid (logInputs i).1
              ((installPipeline w serviceName orgName personalAccessToken
                  pipelineName repoName repoUrl devopsProject
                  (in_packagesDir i) process_exit).1
               ++ [Log error (Text [Lit "Error occurred installing pipeline for ";
                                    Interp (JStr serviceName)]);
                   Log error (Caught (missingId created));
                   ExitCall 1]))
    as (_ & _ & -> & -> & ->).
  unfold errors_logged, builds_queued, exit_calls in *.
  rewrite !omap_app, Herr, Hbuilds, Hexit. done.
Qed.

Lemma action_catches_missing_id_witness :
  (action (worldWith (Resolved forgetfulApi)) "cart" allOptions).2 = Exit 1
  ∧ builds_queued (action (worldWith (Resolved forgetfulApi)) "cart" allOptions).1
    = [].
Proof.
  pose proof (action_catches_missing_id (worldWith (Resolved forgetfulApi))
                "cart" allOptions [GetOriginUrl] inputsOfAllOptions
                "contoso" "pat" "cart-ci" "cart"
                "https://dev.azure.com/contoso/shop/_git/cart" "shop"
                forgetfulApi
                (payloadOf "cart" "cart-ci" "cart"
                   "https://dev.azure.com/contoso/shop/_git/cart"
                   (Some "packages"))
                eq_refl eq_refl eq_refl eq_refl eq_refl eq_refl eq_refl
                eq_refl eq_refl eq_refl)
    as (H1 & _ & H3 & _).
  split; [exact H1 | exact H3].
Defined.

(** X19: the whole command when everything succeeds: one definition is
    submitted, the payload built from the resolved inputs with the option's
    [packagesDir], to the resolved project; one build is queued, for the id
    of the created definition; nothing is logged as an error, the process
    is not exited, and the action completes. *)
Theorem action_succeeds w serviceName opts t i
    orgName personalAccessToken pipelineName repoName repoUrl devopsProject
    client created definitionId build :
  resolveInputs w serviceName opts = (t, Return i) →
  in_orgName i = JStr orgName →
  in_personalAccessToken i = JStr personalAccessToken →
  in_pipelineName i = JStr pipelineName →
  in_repoName i = JStr repoName →
  in_repoUrl i = JStr repoUrl →
  in_devopsProject i = JStr devopsProject →
  (getBuildApiClient w orgName personalAccessToken).2 = Return client →
  (createPipelineForDefinition client devopsProject
     (payloadOf serviceName pipelineName repoName repoUrl (opt_packagesDir opts))).2
  = Return created →
  id created = Some definitionId →
  api_queueBuild client (buildReferenceOf definitionId) devopsProject
  = Resolved build →
  (action w serviceName opts).2 = Return tt
  ∧ exit_calls (action w serviceName opts).1 = []
  ∧ errors_logged (action w serviceName opts).1 = []
  ∧ definitions_submitted (action w serviceName opts).1
    = [(payloadOf serviceName pipelineName repoName repoUrl
          (opt_packagesDir opts), devopsProject)]
  ∧ builds_queued (action w serviceName opts).1
    = [(buildReferenceOf definitionId, devopsProject)].
Proof.
  intros Hres E1 E2 E3 E4 E5 E6 Hclient Hcreated Hid Hbuild.
  rewrite (action_valid _ _ _ _ _ _ _ _ _ _ _ Hres E1 E2 E3 E4 E5 E6).
  destruct (resolveInputs_returns _ _ _ _ _ Hres)
    as (_ & _ & _ & _ & _ & _ & -> & _).
  destruct (installPipeline_success_run w serviceName orgName
              personalAccessToken pipelineName repoName repoUrl devopsProject
              (opt_packagesDir opts) process_exit client created definitionId
              build Hclient Hcreated Hid Hbuild)
    as (Hend & Hexit & Herr & Hdefs & Hbuilds).
  cbn [fst snd]. rewrite Hend, app_nil_r.
  destruct (observations_of_action_valid (logInputs i).1
              (installPipeline w serviceName orgName personalAccessToken
                 pipelineName repoName repoUrl devopsProject
                 (opt_packagesDir opts) process_exit).1)
    as (_ & -> & -> & -> & ->).
  by rewrite Hexit, Herr, Hdefs, Hbuilds.
Qed.

Lemma action_succeeds_witness :
  (action (configuredWorld (Resolved acceptingApi)) "cart" noOptions).2
  = Return tt
  ∧ builds_queued
      (action (configuredWorld (Resolved acceptingApi)) "cart" noOptions).1
    = [(buildReferenceOf 42, "shop")].
Proof.
  pose proof (action_succeeds (configuredWorld (Resolved acceptingApi))
                "cart" noOptions [GetOriginUrl] inputsOfConfiguration
                "contoso" "pat" "cart-pipeline" "cart"
                "https://dev.azure.com/contoso/shop/_git/cart" "shop"
                acceptingApi
                (withId 42
                   (payloadOf "cart" "cart-pipeline" "cart"
                      "https://dev.azure.com/contoso/shop/_git/cart" None))
                42 (buildReferenceOf 42)
                eq_refl eq_refl eq_refl eq_refl eq_refl eq_refl eq_refl
                eq_refl eq_refl eq_refl eq_refl)
    as (H1 & _ & _ & _ & H5).
  split; [exact H1 | exact H5].
Defined.

(** X21: the personal access token is written to the debug log, as it is,
    whenever the inputs resolve; so are the other six inputs. *)
Theorem action_logs_access_token w serviceName opts t i :
  resolveInputs w serviceName opts = (t, Return i) →
  Log debug (Text [Lit "personalAccessToken: ";
                   Interp (in_personalAccessToken i)])
  ∈ (action w serviceName opts).1
  ∧ ∃ rest, (action w serviceName opts).1 = t ++ (logInputs i).1 ++ rest.
Proof.
  intros Hres.
  assert (∃ rest, (action w serviceName opts).1 = t ++ (logInputs i).1 ++ rest)
    as [rest Hrest].
  { unfold action. rewrite Hres, bind_ret. cbv beta.
    rewrite (logInputs_returns i), bind_ret. cbn [fst snd].
    eexists. reflexivity. }
  split; [| by exists rest].
  rewrite Hrest. apply elem_of_app. right. apply elem_of_app. left.
  simpl. apply list_elem_of_further, list_elem_of_here.
Qed.

Lemma action_logs_access_token_witness :
  Log debug (Text [Lit "personalAccessToken: "; Interp (JStr "pat")])
  ∈ (action (worldWith (Resolved acceptingApi)) "cart" allOptions).1.
Proof.
  apply (action_logs_access_token (worldWith (Resolved acceptingApi)) "cart"
           allOptions [GetOriginUrl] inputsOfAllOptions).
  reflexivity.
Defined.

(** ** The YAML file path of a mono-repository *)

(** Once the client is fetched, a run submits the payload built from its
    arguments, and nothing else. *)
Lemma installPipeline_submits w serviceName orgName personalAccessToken
    pipelineName repositoryName repositoryUrl project packagesDir exitFn client :
  (getBuildApiClient w orgName personalAccessToken).2 = Return client →
  definitions_submitted
    (installPipeline w serviceName orgName personalAccessToken pipelineName
       repositoryName repositoryUrl project packagesDir exitFn).1
  = [(payloadOf serviceName pipelineName repositoryName repositoryUrl
        packagesDir, project)].
Proof.
  intros Hclient%getBuildApiClient_returns.
  unfold_install. rewrite Hclient. simpl.
  destruct (api_createDefinition client _ _) as [[created |] | e]; simpl;
    [destruct (id created); simpl;
       [destruct (api_queueBuild client _ _); simpl |] | |];
    try (destruct (exitFn 1)); reflexivity.
Qed.

Lemma split_no_separator a r :
  no_separator a = true →
  path.split (a +:+ String "/" r) = a :: path.split r.
Proof.
  induction a as [| c a IH]; simpl; [done |].
  intros [Hc Ha]%andb_true_iff. apply negb_true_iff in Hc.
  rewrite Hc, (IH Ha). reflexivity.
Qed.

Lemma split_single a : no_separator a = true → path.split a = [a].
Proof.
  induction a as [| c a IH]; simpl; [done |].
  intros [Hc Ha]%andb_true_iff. apply negb_true_iff in Hc.
  rewrite Hc, (IH Ha). reflexivity.
Qed.

Lemma ends_with_sep_app a b :
  b ≠ "" → path.ends_with_sep (a +:+ b) = path.ends_with_sep b.
Proof.
  intros Hb. induction a as [| c a IH]; simpl; [done |].
  destruct (a +:+ b) eqn:E; [| exact IH].
  destruct a; simpl in E; [done | discriminate].
Qed.

Lemma plain_segment_spec s :
  plain_segment s = true →
  no_separator s = true
  ∧ String.eqb s "" = false
  ∧ String.eqb s "." = false
  ∧ String.eqb s ".." = false.
Proof.
  unfold plain_segment.
  intros [[[H1 H2]%andb_true_iff H3]%andb_true_iff H4]%andb_true_iff.
  by rewrite negb_true_iff in H2, H3, H4.
Qed.

(** [path.join] of three plain segments puts separators between them. *)
Lemma join_plain_segments a b c :
  plain_segment a = true → plain_segment b = true → plain_segment c = true →
  path.join [a; b; c] = a +:+ "/" +:+ b +:+ "/" +:+ c.
Proof.
  intros (Na & Ea & Da & DDa)%plain_segment_spec
         (Nb & Eb & Db & DDb)%plain_segment_spec
         (Nc & Ec & Dc & DDc)%plain_segment_spec.
  assert (a ≠ "" ∧ b ≠ "" ∧ c ≠ "") as (Ha & Hb & Hc).
  { by rewrite <- !String.eqb_neq. }
  unfold path.join.
  rewrite !filter_cons_True, filter_nil by done.
  change (path.concat_sep [a; b; c])
    with (a +:+ String "/" (b +:+ String "/" c)).
  change (a +:+ "/" +:+ b +:+ "/" +:+ c)
    with (a +:+ String "/" (b +:+ String "/" c)).
  set (p := a +:+ String "/" (b +:+ String "/" c)).
  assert (path.split p = [a; b; c]) as Hsplit.
  { unfold p. by rewrite split_no_separator, split_no_separator, split_single. }
  assert (path.ends_with_sep c = false) as Hend_c.
  { clear -Nc. induction c as [| x c IH]; [done |].
    simpl in *. apply andb_true_iff in Nc as [Hx Hc].
    apply negb_true_iff in Hx. destruct c; [exact Hx | by apply IH]. }
  assert (path.ends_with_sep p = false) as Hend.
  { unfold p. rewrite ends_with_sep_app by done.
    change (String "/" (b +:+ String "/" c))
      with ("/" +:+ (b +:+ String "/" c)).
    rewrite ends_with_sep_app by (by destruct b).
    rewrite ends_with_sep_app by done.
    change (String "/" c) with ("/" +:+ c).
    by rewrite ends_with_sep_app. }
  assert (path.starts_with_sep p = false) as Hstart.
  { unfold p. destruct a as [| x a]; [done |]. simpl in *.
    apply andb_true_iff in Na as [Hx _]. by apply negb_true_iff in Hx. }
  assert (String.eqb p "" = false) as Hne.
  { unfold p. by destruct a. }
  unfold path.normalize, path.normalizeString.
  rewrite Hne, Hstart, Hend, Hsplit.
  simpl fold_left. unfold path.step.
  rewrite Ea, Da, DDa, Eb, Db, DDb, Ec, Dc, DDc.
  change (path.concat_sep (rev [c; b; a])) with p.
  by rewrite Hne.
Qed.

(** X10: for a packages directory and a service name that are plain names (not
    empty, no separator, neither ["."] nor [".."]), the YAML file path is
    [<packages-dir>/<service-name>/azure-pipelines.yaml]: in the object
    literal handed to the builder, and in the one definition that a run of
    [installPipeline] submits once the client is fetched. *)
Theorem yamlFilePath_plain_names
    (serviceName pipelineName repositoryName repositoryUrl dir : string) :
  plain_segment dir = true →
  plain_segment serviceName = true →
  yamlFilePath (pipelineConfigFor serviceName pipelineName repositoryName
                  repositoryUrl (Some dir))
  = dir +:+ "/" +:+ serviceName +:+ "/azure-pipelines.yaml"
  ∧ ∀ w orgName personalAccessToken project exitFn client,
      (getBuildApiClient w orgName personalAccessToken).2 = Return client →
      yamlFilenames_submitted
        (installPipeline w serviceName orgName personalAccessToken
           pipelineName repositoryName repositoryUrl project (Some dir)
           exitFn).1
      = [Some (dir +:+ "/" +:+ serviceName +:+ "/azure-pipelines.yaml")].
Proof.
  intros Hdir Hservice.
  assert (yamlFilePath (pipelineConfigFor serviceName pipelineName
                          repositoryName repositoryUrl (Some dir))
          = dir +:+ "/" +:+ serviceName +:+ "/azure-pipelines.yaml") as Hpath.
  { simpl. destruct (plain_segment_spec dir Hdir) as (_ & -> & _).
    by apply join_plain_segments. }
  split; [exact Hpath |].
  intros w orgName personalAccessToken project exitFn client Hclient.
  unfold yamlFilenames_submitted.
  rewrite (installPipeline_submits _ _ _ _ _ _ _ _ _ _ _ Hclient).
  unfold payloadOf. cbn [fmap list_fmap fst].
  by rewrite <- Hpath.
Qed.

Lemma yamlFilePath_plain_names_witness :
  yamlFilePath (pipelineConfigFor "cart" "cart-ci" "cart" "url" (Some "packages"))
  = "packages/cart/azure-pipelines.yaml".
Proof.
  apply (yamlFilePath_plain_names "cart" "cart-ci" "cart" "url" "packages");
    reflexivity.
Defined.

(** Outside of plain names the path is normalized, not concatenated. *)
Example yamlFilePath_normalized :
  yamlFilePath (pipelineConfigFor "cart" "cart-ci" "cart" "url" (Some "./packages/"))
  = "packages/cart/azure-pipelines.yaml"
  ∧ yamlFilePath (pipelineConfigFor "cart" "cart-ci" "cart" "url" (Some ".."))
    = "../cart/azure-pipelines.yaml"
  ∧ yamlFilePath (pipelineConfigFor "../cart" "cart-ci" "cart" "url" (Some "packages"))
    = "cart/azure-pipelines.yaml".
Proof. vm_compute. done. Qed.

(** ** [installPipeline]: what its arguments reach *)

Section InstallPipelineArguments.

Variable w : World.
Variables orgName pipelineName repositoryName repositoryUrl project : string.
Variable exitFn : Z → outcome unit.

(** X8: the access token reaches the authentication call and nothing else: two
    runs that differ only in the token, and are answered alike by the
    vendor, both start with the authentication call, each with its own
    token, and are the same from there on, log lines and outcome
    included. *)
Theorem installPipeline_token_only_authenticates
    serviceName packagesDir (token1 token2 : string) :
  WebApi w (azdoUrl w orgName) (PersonalAccessTokenHandler token1)
  = WebApi w (azdoUrl w orgName) (PersonalAccessTokenHandler token2) →
  let run1 := installPipeline w serviceName orgName token1 pipelineName
                repositoryName repositoryUrl project packagesDir exitFn in
  let run2 := installPipeline w serviceName orgName token2 pipelineName
                repositoryName repositoryUrl project packagesDir exitFn in
  head run1.1 = Some (GetBuildApi (azdoUrl w orgName)
                        (PersonalAccessTokenHandler token1))
  ∧ head run2.1 = Some (GetBuildApi (azdoUrl w orgName)
                          (PersonalAccessTokenHandler token2))
  ∧ tail run1.1 = tail run2.1
  ∧ logged_lines run1.1 = logged_lines run2.1
  ∧ run1.2 = run2.2.
Proof.
  intros Hsame. cbv zeta. unfold_install. rewrite Hsame. clear Hsame.
  destruct (WebApi w _ _) as [client | e]; simpl.
  2: { by destruct (exitFn 1). }
  destruct (api_createDefinition client _ _) as [[created |] | e]; simpl;
    [destruct (id created); simpl;
       [destruct (api_queueBuild client _ _); simpl |] | |];
    try (destruct (exitFn 1)); done.
Qed.

(** X9: without a packages directory ([undefined] or the empty string) the
    service name is not used: runs that differ only in the service name are
    the same run. *)
Theorem installPipeline_serviceName_unused
    personalAccessToken packagesDir (serviceName1 serviceName2 : string) :
  packagesDir = None ∨ packagesDir = Some "" →
  installPipeline w serviceName1 orgName personalAccessToken pipelineName
    repositoryName repositoryUrl project packagesDir exitFn
  = installPipeline w serviceName2 orgName personalAccessToken pipelineName
      repositoryName repositoryUrl project packagesDir exitFn.
Proof. by intros [-> | ->]. Qed.

(** Every run starts with the authentication, for the URL of the given
    organization and with the given token, before anything is logged. *)
Lemma installPipeline_starts serviceName personalAccessToken packagesDir :
  ∃ rest,
    (installPipeline w serviceName orgName personalAccessToken pipelineName
       repositoryName repositoryUrl project packagesDir exitFn).1
    = GetBuildApi (azdoUrl w orgName)
        (PersonalAccessTokenHandler personalAccessToken) :: rest.
Proof.
  unfold_install.
  destruct (WebApi w _ _) as [client | e]; simpl.
  2: { destruct (exitFn 1); by eexists. }
  destruct (api_createDefinition client _ _) as [[created |] | e]; simpl;
    [destruct (id created); simpl;
       [destruct (api_queueBuild client _ _); simpl |] | |];
    try (destruct (exitFn 1)); by eexists.
Qed.

End InstallPipelineArguments.

Lemma installPipeline_token_only_authenticates_witness :
  tail (installPipeline (worldWith (Resolved busyApi)) "cart" "contoso" "pat"
          "cart-ci" "cart" "url" "shop" None returningExit).1
  = tail (installPipeline (worldWith (Resolved busyApi)) "cart" "contoso"
            "another-pat" "cart-ci" "cart" "url" "shop" None returningExit).1.
Proof.
  pose proof (installPipeline_token_only_authenticates
                (worldWith (Resolved busyApi)) "contoso" "cart-ci" "cart"
                "url" "shop" returningExit "cart" None "pat" "another-pat"
                eq_refl) as (_ & _ & H & _).
  exact H.
Defined.

Lemma installPipeline_serviceName_unused_witness :
  installPipeline (worldWith (Resolved acceptingApi)) "cart" "contoso" "pat"
    "cart-ci" "cart" "url" "shop" (Some "") returningExit
  = installPipeline (worldWith (Resolved acceptingApi)) "basket" "contoso"
      "pat" "cart-ci" "cart" "url" "shop" (Some "") returningExit.
Proof.
  apply installPipeline_serviceName_unused. right. reflexivity.
Defined.

(** X16: the validation tests types only: values that are strings, empty ones
    included, pass, and the action goes on to authenticate with them; the
    authentication is the first vendor call of the action. *)
Theorem action_authenticates_any_strings w serviceName opts t i
    orgName personalAccessToken pipelineName repoName repoUrl devopsProject :
  resolveInputs w serviceName opts = (t, Return i) →
  in_orgName i = JStr orgName →
  in_personalAccessToken i = JStr personalAccessToken →
  in_pipelineName i = JStr pipelineName →
  in_repoName i = JStr repoName →
  in_repoUrl i = JStr repoUrl →
  in_devopsProject i = JStr devopsProject →
  ∃ before after,
    (action w serviceName opts).1
    = before
      ++ GetBuildApi (azdoUrl w orgName)
           (PersonalAccessTokenHandler personalAccessToken) :: after
    ∧ vendor_calls before = []
    ∧ exit_calls before = []
    ∧ errors_logged before = [].
Proof.
  intros Hres E1 E2 E3 E4 E5 E6.
  rewrite (action_valid _ _ _ _ _ _ _ _ _ _ _ Hres E1 E2 E3 E4 E5 E6).
  cbn [fst snd].
  destruct (installPipeline_starts w orgName pipelineName repoName repoUrl
              devopsProject process_exit serviceName personalAccessToken
              (in_packagesDir i)) as [rest ->].
  exists ([GetOriginUrl] ++ (logInputs i).1). eexists.
  split; [by rewrite <- !app_assoc, <- app_comm_cons |].
  done.
Qed.

Lemma action_authenticates_any_strings_witness :
  ∃ before after,
    (action (worldWith (Resolved acceptingApi)) "cart" emptyOptions).1
    = before
      ++ GetBuildApi "https://dev.azure.com/" (PersonalAccessTokenHandler "")
         :: after
    ∧ vendor_calls before = []
    ∧ exit_calls before = []
    ∧ errors_logged before = [].
Proof.
  apply (action_authenticates_any_strings (worldWith (Resolved acceptingApi))
           "cart" emptyOptions [GetOriginUrl] inputsOfEmptyOptions
           "" "" "cart-ci" "cart" "url" "shop"); reflexivity.
Defined.

(** ** The YAML file path that a run submits *)

(** C1, as amended: in a run of [installPipeline] in which the client is
    fetched, the one definition submitted is the builder's result on a
    configuration whose YAML file path is
    [path.join(packagesDir, serviceName, "azure-pipelines.yaml")] for every
    non-empty [packagesDir], and ["azure-pipelines.yaml"] for [packagesDir]
    undefined or the empty string; that path is the YAML file name of the
    submitted definition. *)
Theorem installPipeline_yamlFilePath w serviceName orgName personalAccessToken
    pipelineName repositoryName repositoryUrl project packagesDir exitFn client :
  (getBuildApiClient w orgName personalAccessToken).2 = Return client →
  ∃ pipelineConfig,
    definitions_submitted
      (installPipeline w serviceName orgName personalAccessToken pipelineName
         repositoryName repositoryUrl project packagesDir exitFn).1
    = [(definitionForAzureRepoPipeline pipelineConfig, project)]
    ∧ yamlFilenames_submitted
        (installPipeline w serviceName orgName personalAccessToken
           pipelineName repositoryName repositoryUrl project packagesDir
           exitFn).1
      = [Some (yamlFilePath pipelineConfig)]
    ∧ (∀ dir, packagesDir = Some dir → dir ≠ "" →
       yamlFilePath pipelineConfig
       = path.join [dir; serviceName; "azure-pipelines.yaml"])
    ∧ (packagesDir = None ∨ packagesDir = Some "" →
       yamlFilePath pipelineConfig = "azure-pipelines.yaml").
Proof.
  intros Hclient.
  exists (pipelineConfigFor serviceName pipelineName repositoryName
            repositoryUrl packagesDir).
  pose proof (installPipeline_submits _ serviceName _ _ pipelineName
                repositoryName repositoryUrl project packagesDir exitFn _
                Hclient) as Hsubmitted.
  split; [exact Hsubmitted |]. split.
  - unfold yamlFilenames_submitted. rewrite Hsubmitted. reflexivity.
  - apply yamlFilePath_by_packagesDir.
Qed.

Lemma installPipeline_yamlFilePath_witness :
  yamlFilenames_submitted
    (installPipeline (worldWith (Resolved refusingApi)) "cart" "contoso" "pat"
       "cart-ci" "cart" "url" "shop" (Some "packages") returningExit).1
  = [Some (path.join ["packages"; "cart"; "azure-pipelines.yaml"])].
Proof.
  destruct (installPipeline_yamlFilePath (worldWith (Resolved refusingApi))
              "cart" "contoso" "pat" "cart-ci" "cart" "url" "shop"
              (Some "packages") returningExit refusingApi eq_refl)
    as (pipelineConfig & _ & Hnames & Hdir & _).
  rewrite Hnames. f_equal. f_equal. apply Hdir; [reflexivity | discriminate].
Defined.

(** C1, as stated, fails at the empty string, which is a defined string:
    the definition that the run submits has the YAML file name
    ["azure-pipelines.yaml"], while
    [path.join("", "cart", "azure-pipelines.yaml")] is
    ["cart/azure-pipelines.yaml"]. *)
Lemma installPipeline_yamlFilePath_empty_packagesDir :
  yamlFilenames_submitted
    (installPipeline (worldWith (Resolved acceptingApi)) "cart" "contoso" "pat"
       "cart-ci" "cart" "url" "shop" (Some "") returningExit).1
  = [Some "azure-pipelines.yaml"]
  ∧ path.join [""; "cart"; "azure-pipelines.yaml"] = "cart/azure-pipelines.yaml"
  ∧ yamlFilenames_submitted
      (installPipeline (worldWith (Resolved acceptingApi)) "cart" "contoso"
         "pat" "cart-ci" "cart" "url" "shop" (Some "") returningExit).1
    ≠ [Some (path.join [""; "cart"; "azure-pipelines.yaml"])].
Proof.
  split; [reflexivity |]. split; [vm_compute; reflexivity |].
  vm_compute. discriminate.
Qed.

(** ** The default of the pipeline name in the command *)

(** C9: when [--pipeline-name] is omitted and the inputs resolve, the action
    goes on with the service name followed by ["-pipeline"] as the pipeline
    name: that is the name it writes to the debug log, and, when the other
    five values are strings, the name it hands to [installPipeline], whose
    run makes up the rest of the action. *)
Theorem action_pipelineName_default w serviceName opts t i :
  opt_pipelineName opts = JUndefined →
  resolveInputs w serviceName opts = (t, Return i) →
  in_pipelineName i = JStr (serviceName +:+ "-pipeline")
  ∧ Log debug (Text [Lit "pipelineName: ";
                     Interp (JStr (serviceName +:+ "-pipeline"))])
    ∈ (action w serviceName opts).1
  ∧ ∀ orgName personalAccessToken repoName repoUrl devopsProject,
      in_orgName i = JStr orgName →
      in_personalAccessToken i = JStr personalAccessToken →
      in_repoName i = JStr repoName →
      in_repoUrl i = JStr repoUrl →
      in_devopsProject i = JStr devopsProject →
      let run :=
        installPipeline w serviceName orgName personalAccessToken
          (serviceName +:+ "-pipeline") repoName repoUrl devopsProject
          (opt_packagesDir opts) process_exit in
      (action w serviceName opts).1
      = t ++ (logInputs i).1 ++ run.1
          ++ match run.2 with
             | Throw err =>
                 [Log error (Text [Lit "Error occurred installing pipeline for ";
                                   Interp (JStr serviceName)]);
                  Log error (Caught err);
                  ExitCall 1]
             | _ => []
             end
      ∧ (action w serviceName opts).2
        = match run.2 with
          | Throw _ => Exit 1
          | ended => ended
          end.
Proof.
  intros Hopt Hres.
  pose proof (pipelineName_default _ _ _ _ _ Hopt Hres) as Hname.
  split; [exact Hname |]. split.
  - destruct (action_logs_inputs _ _ _ _ _ Hres) as [rest ->].
    apply elem_of_app. right. apply elem_of_app. left.
    simpl. rewrite Hname.
    do 3 apply list_elem_of_further. apply list_elem_of_here.
  - intros orgName personalAccessToken repoName repoUrl devopsProject
           E1 E2 E4 E5 E6.
    pose proof (action_valid _ _ _ _ _ _ _ _ _ _ _ Hres E1 E2 Hname E4 E5 E6)
      as Hrun.
    destruct (resolveInputs_returns _ _ _ _ _ Hres)
      as (_ & _ & _ & _ & _ & _ & Hdir & _).
    assert (t = [GetOriginUrl]) as ->.
    { pose proof (resolveInputs_trace w serviceName opts) as Htr.
      by rewrite Hres in Htr. }
    rewrite Hdir in Hrun. cbv zeta in *. by rewrite Hrun.
Qed.

Lemma action_pipelineName_default_witness :
  Log debug (Text [Lit "pipelineName: "; Interp (JStr "cart-pipeline")])
  ∈ (action (configuredWorld (Resolved acceptingApi)) "cart" noOptions).1
  ∧ name <$> (fst <$> definitions_submitted
                (action (configuredWorld (Resolved acceptingApi)) "cart"
                   noOptions).1)
    = [Some "cart-pipeline"].
Proof.
  destruct (action_pipelineName_default
              (configuredWorld (Resolved acceptingApi)) "cart" noOptions
              [GetOriginUrl] inputsOfConfiguration eq_refl eq_refl)
    as (_ & Hlog & Hrun).
  split; [exact Hlog |].
  destruct (Hrun "contoso" "pat" "cart"
              "https://dev.azure.com/contoso/shop/_git/cart" "shop"
              eq_refl eq_refl eq_refl eq_refl eq_refl) as [-> _].
  reflexivity.
Defined.
